(** * lab02: temperature by CEP

    A shallow embedding of the two Go services of the repository:

    - [ServiceA] (ServiceA/main.go), the edge gateway: decodes the request
      body, validates the CEP and forwards it to ServiceB;
    - [ServiceB] (ServiceB/main.go), the resolution service: validates the
      CEP again, asks the CEP directory for the city and its coordinates,
      asks the weather API for the current temperature and converts it.

    Handlers are written in a small state monad.  The state holds what a
    handler can change: the tracing spans it has started, the outbound HTTP
    requests it has sent, its [http.ResponseWriter] and the panic that
    ended it, when there is one.  What the Go
    libraries and the network answer (URL parsing, the round trip,
    [json.Unmarshal], [strconv.ParseFloat], the process environment) is a
    record of functions that every definition takes as a parameter.
    Contexts, trace propagation headers and timeouts do not influence a
    response otherwise than through a failed round trip, and are left out.

    The body of a response is kept as the list of Go values handed to
    [json.NewEncoder(w).Encode]; the text that [encoding/json] makes of a
    value is not modelled.  [float64] is Rocq's primitive binary64 float,
    with round-to-nearest-even.  [ServiceB.HandlerCep] rounds every
    operation on its own, as the default amd64 build does; the Go compiler
    may fuse [x*y + z] (it does on arm64), and [Build.HandlerCep] is the
    handler on either build. *)

From Stdlib Require Import Bool Ascii String List ZArith Lia Floats.
From Stdlib Require Import DecimalString.
Import ListNotations.

Set Warnings "-inexact-float".
Set Implicit Arguments.

Open Scope string_scope.
Open Scope Z_scope.

(** ** The Go runtime shared by both programs *)

Module Go.

(** An [error] is represented by its [Error()] text. *)
Definition error := string.

(** A Go pair [(T, error)] in which exactly one side is meaningful. *)
Inductive Result (A : Type) : Type :=
| Ok (a : A)
| Err (err : error).
Arguments Ok {A} a.
Arguments Err {A} err.

(** [fmt.Errorf("<prefix>: %w", err)] *)
Definition wrap (prefix : string) (err : error) : error :=
  prefix ++ ": " ++ err.

(** [%d] of an [int] *)
Definition itoa (n : Z) : string := NilZero.string_of_int (Z.to_int n).

(** *** net/http status codes *)

Definition StatusOK : Z := 200.
Definition StatusNotFound : Z := 404.
Definition StatusUnprocessableEntity : Z := 422.
Definition StatusInternalServerError : Z := 500.

(** *** regexp

    The fragment of [regexp/syntax] that the pattern of the services
    needs.  A match is computed on bytes; the only character class used
    is a range of ASCII characters, which never matches a byte of a
    multi-byte rune. *)

Inductive Regexp : Type :=
| OpBeginText                      (* ^ (without the m flag) *)
| OpEndText                        (* $ (without the m flag) *)
| OpCharClass (lo hi : ascii)      (* [lo-hi] *)
| OpConcat (r1 r2 : Regexp)
| OpRepeat (n : nat) (r : Regexp)  (* r{n} *).

(** A position in the input: the offset and the text that is left. *)
Definition Pos := (nat * string)%type.

Definition inClass (lo hi c : ascii) : bool :=
  Ascii.leb lo c && Ascii.leb c hi.

Fixpoint iter {A : Type} (n : nat) (f : A -> A) (x : A) : A :=
  match n with
  | O => x
  | S n' => iter n' f (f x)
  end.

(** [matchAt r p]: every position at which a match of [r] that starts at
    [p] can end. *)
Fixpoint matchAt (r : Regexp) (p : Pos) : list Pos :=
  match r with
  | OpBeginText =>
      match fst p with O => [p] | S _ => [] end
  | OpEndText =>
      match snd p with EmptyString => [p] | String _ _ => [] end
  | OpCharClass lo hi =>
      match snd p with
      | EmptyString => []
      | String c rest => if inClass lo hi c then [(S (fst p), rest)] else []
      end
  | OpConcat r1 r2 => flat_map (matchAt r2) (matchAt r1 p)
  | OpRepeat n r1 => iter n (flat_map (matchAt r1)) [p]
  end.

(** The unanchored search of [Regexp.MatchString]: a match may start
    at any offset. *)
Fixpoint search (r : Regexp) (off : nat) (s : string) : bool :=
  match matchAt r (off, s) with
  | _ :: _ => true
  | [] =>
      match s with
      | EmptyString => false
      | String _ rest => search r (S off) rest
      end
  end.

Definition MatchString (r : Regexp) (s : string) : bool := search r 0 s.

(** [\d] is [[0-9]]. *)
Definition perl_d : Regexp := OpCharClass "0" "9".

(** [regexp.MustCompile(`^\d{8}$`)]: the pattern both services compile. *)
Definition cepPattern : Regexp :=
  OpConcat OpBeginText (OpConcat (OpRepeat 8 perl_d) OpEndText).

(** *** net/http, client side *)

Record Request : Type := mkRequest { Method : string; URL : string }.

(** [http.NewRequestWithContext(ctx, method, url, nil)] fails when the
    URL does not parse; [parseError] is what [url.Parse] says. *)
Definition NewRequestWithContext (parseError : string -> option error)
    (method url : string) : Result Request :=
  match parseError url with
  | Some err => Err err
  | None => Ok (mkRequest method url)
  end.

(** What [client.Do(req)] followed by [io.ReadAll(resp.Body)] gives. *)
Inductive RoundTrip : Type :=
| DoFailed (err : error)                      (* client.Do: err != nil *)
| ReadFailed (StatusCode : Z) (err : error)   (* io.ReadAll: err != nil *)
| Responded (StatusCode : Z) (body : string).

(** *** net/http, server side

    [P] is the type of the values handed to [json.NewEncoder(w).Encode]. *)

Section Handler.
Variable P : Type.

Record ResponseWriter : Type := mkWriter {
  status : option Z;     (* the status line, once it is written *)
  written : list P       (* the values handed to Encode, in order *)
}.

Record State : Type := MkState {
  spans : list string;   (* names of the spans started, in order *)
  sent : list Request;   (* outbound requests handed to client.Do *)
  w : ResponseWriter;
  panicked : option string   (* the value of a panic, once there is one *)
}.

(** A state of a run that has not panicked. *)
Definition mkState (spans : list string) (sent : list Request)
    (w : ResponseWriter) : State :=
  MkState spans sent w None.

Definition initial : State := mkState [] [] (mkWriter None []).

Definition M (A : Type) : Type := State -> A * State.

Definition ret {A : Type} (a : A) : M A := fun st => (a, st).

(** A panic ends the run of a handler: what follows the step that
    panicked leaves no trace in the state. *)
Definition bind {A B : Type} (m : M A) (k : A -> M B) : M B :=
  fun st =>
    let (a, st') := m st in
    match panicked st' with
    | None => k a st'
    | Some _ => (fst (k a st'), st')
    end.

(** [w.WriteHeader(code)].  A call after the status is written does not
    change it; otherwise [net/http] panics for a code that is not one of
    100..999 and writes nothing.  (A handler that panics is answered for
    by the Recoverer middleware that [main] installs.)  The informational
    statuses 100..199 are not told apart from the final ones: the handlers
    write 200, 404, 422 and 500 themselves, and the Go client hands no
    informational status other than 101 to the gateway. *)
Definition WriteHeader (code : Z) : M unit :=
  fun st =>
    match status (w st) with
    | Some _ => (tt, st)
    | None =>
        if (100 <=? code) && (code <=? 999) then
          (tt, MkState (spans st) (sent st)
                 (mkWriter (Some code) (written (w st))) (panicked st))
        else
          (tt, MkState (spans st) (sent st) (w st)
                 (Some ("invalid WriteHeader code " ++ itoa code)))
    end.

(** [json.NewEncoder(w).Encode(v)]; the first write sends status 200
    when no status was written.  [written] keeps the value handed to the
    encoder whatever the status is ([net/http] sends no body with 204 and
    304). *)
Definition Encode (v : P) : M unit :=
  fun st =>
    let code := match status (w st) with
                | Some c => c
                | None => StatusOK
                end in
    (tt, MkState (spans st) (sent st)
           (mkWriter (Some code) (written (w st) ++ [v])) (panicked st)).

(** [client.Do(req)] and [io.ReadAll(resp.Body)] against a network [net]. *)
Definition Do (net : Request -> RoundTrip) (req : Request) : M RoundTrip :=
  fun st =>
    (net req, MkState (spans st) (sent st ++ [req]) (w st) (panicked st)).

(** [tracer.Start(ctx, name)] *)
Definition Start (name : string) : M unit :=
  fun st =>
    (tt, MkState (spans st ++ [name]) (sent st) (w st) (panicked st)).

(** Running a handler on a fresh request. *)
Definition serve (h : M unit) : State := snd (h initial).
End Handler.

Arguments ret {P A} a.
Arguments bind {P A B} m k.
Arguments WriteHeader {P} code.
Arguments Encode {P} v.
Arguments Do {P} net req.
Arguments Start {P} name.
Arguments mkState {P} spans sent w.
Arguments serve {P} h.
Arguments initial {P}.

End Go.

Import Go.

Notation "x <- c1 ;; c2" := (bind c1 (fun x => c2))
  (at level 61, c1 at next level, right associativity).
Notation "c1 ;; c2" := (bind c1 (fun _ => c2))
  (at level 61, right associativity).

Open Scope float_scope.

(** ** ServiceB/main.go: the resolution service *)

Module ServiceB.

Definition validCepRegex : Regexp := cepPattern.

(** The structs of the program.  A field keeps its Go name, except where
    two structs share it: [State_] is [State], [WLatitude] and [WLongitude]
    are [Latitude] and [Longitude] of [WeatherApiResponse], [Units] is its
    [CurrentUnits], the fields of [CurrentUnits] carry the prefix [Units],
    [TCity] is [City] of [Temperature], and the struct [Current] is
    [Current_]. *)

Record CepAwesomeapiResponse : Type := mkCepAwesomeapiResponse {
  Cep : string;
  AddressType : string;
  AddressName : string;
  Address : string;
  State_ : string;
  District : string;
  Latitude : string;
  Longitude : string;
  City : string;
  Ibge : string;
  Ddd : string
}.

Record CurrentUnits : Type := mkCurrentUnits {
  UnitsTime : string;
  UnitsInterval : string;
  UnitsTemperature2M : string
}.

Record Current_ : Type := mkCurrent {
  Time : string;
  Interval : Z;
  Temperature2M : float
}.

Record WeatherApiResponse : Type := mkWeatherApiResponse {
  WLatitude : float;
  WLongitude : float;
  GenerationtimeMs : float;
  UtcOffsetSeconds : Z;
  Timezone : string;
  TimezoneAbbreviation : string;
  Elevation : float;
  Units : CurrentUnits;
  Current : Current_
}.

Record Temperature : Type := mkTemperature {
  TCity : string;
  TempC : float;
  TempF : float;
  TempK : float
}.

(** What the handler hands to [json.NewEncoder(w).Encode]. *)
Inductive Encoded : Type :=
| EncMap (m : list (string * string))   (* a map[string]string *)
| EncTemperature (t : Temperature).

(** What the libraries and the network answer. *)
Record Env : Type := mkEnv {
  (** [url.Parse], inside [http.NewRequestWithContext] *)
  url_Parse_error : string -> option error;
  (** [client.Do] and [io.ReadAll] *)
  network : Request -> RoundTrip;
  (** [json.Unmarshal(body, &cepResponse)] *)
  Unmarshal_CepAwesomeapiResponse : string -> Result CepAwesomeapiResponse;
  (** [json.Unmarshal(body, &weatherResponse)] *)
  Unmarshal_WeatherApiResponse : string -> Result WeatherApiResponse;
  (** [strconv.ParseFloat(s, 64)] *)
  ParseFloat : string -> Result float
}.

Section Program.
Variable env : Env.

Definition CepAwesomeapi (cep : string)
  : M Encoded (Result CepAwesomeapiResponse) :=
  Start "CepAwesomeapi" ;;
  let url := "https://cep.awesomeapi.com.br/json/" ++ cep in
  match NewRequestWithContext (url_Parse_error env) "GET" url with
  | Err err => ret (Err err)
  | Ok req =>
      resp <- Do (network env) req ;;
      match resp with
      | DoFailed err => ret (Err err)
      | ReadFailed _ err => ret (Err err)
      | Responded StatusCode body =>
          if (StatusCode =? StatusNotFound)%Z then
            ret (Err "cep not found")
          else if negb (StatusCode =? StatusOK)%Z then
            ret (Err ("cep api returned " ++ itoa StatusCode))
          else
            match Unmarshal_CepAwesomeapiResponse env body with
            | Err err => ret (Err err)
            | Ok cepResponse =>
                (* AwesomeAPI may answer 200 with an error message in
                   the body for an invalid CEP *)
                if (Cep cepResponse =? "")%string then
                  ret (Err "cep not found")
                else ret (Ok cepResponse)
            end
      end
  end.

Definition WeatherApi (latitude longitude : string)
  : M Encoded (Result WeatherApiResponse) :=
  Start "WeatherApi" ;;
  (* checks that latitude and longitude are valid numbers *)
  match ParseFloat env latitude with
  | Err err => ret (Err (wrap "invalid coordinates" err))
  | Ok _ =>
  match ParseFloat env longitude with
  | Err err => ret (Err (wrap "invalid coordinates" err))
  | Ok _ =>
      let url :=
        "https://api.open-meteo.com/v1/forecast?latitude=" ++ latitude
        ++ "&longitude=" ++ longitude ++ "&current=temperature_2m" in
      match NewRequestWithContext (url_Parse_error env) "GET" url with
      | Err err => ret (Err err)
      | Ok req =>
          resp <- Do (network env) req ;;
          match resp with
          | DoFailed err => ret (Err err)
          | ReadFailed _ err => ret (Err err)
          | Responded StatusCode body =>
              if negb (StatusCode =? StatusOK)%Z then
                ret (Err ("weather api returned " ++ itoa StatusCode))
              else
                match Unmarshal_WeatherApiResponse env body with
                | Err err => ret (Err err)
                | Ok weatherResponse => ret (Ok weatherResponse)
                end
          end
      end
  end end.

(** [HandlerCep], with [cep] the value of [chi.URLParam(r, "cep")]. *)
Definition HandlerCep (cep : string) : M Encoded unit :=
  Start "HandlerCep" ;;
  if (cep =? "")%string || negb (MatchString validCepRegex cep) then
    WriteHeader StatusUnprocessableEntity ;;
    Encode (EncMap [("error", "invalid zipcode")])
  else
    r <- CepAwesomeapi cep ;;
    match r with
    | Err _ =>
        WriteHeader StatusNotFound ;;
        Encode (EncMap [("error", "can not find zipcode")])
    | Ok cepResponse =>
        r' <- WeatherApi (Latitude cepResponse) (Longitude cepResponse) ;;
        match r' with
        | Err _ =>
            WriteHeader StatusNotFound ;;
            Encode (EncMap [("error", "can not find zipcode")])
        | Ok weatherResponse =>
            let tempC := Temperature2M (Current weatherResponse) in
            let result := {|
              TCity := City cepResponse;
              TempC := tempC;
              TempF := tempC * 1.8 + 32;
              TempK := tempC + 273.15
            |} in
            WriteHeader StatusOK ;;
            Encode (EncTemperature result)
        end
    end.
End Program.

End ServiceB.

(** ** ServiceA/main.go: the edge gateway *)

Module ServiceA.

Definition validCepRegex : Regexp := cepPattern.

Record CepRequest : Type := mkCepRequest { Cep : string }.

Record Temperature : Type := mkTemperature {
  City : string;
  TempC : float;
  TempF : float;
  TempK : float
}.

(** The anonymous struct [errResp] of [callServiceB]. *)
Record ErrResp : Type := mkErrResp { Error : string }.

(** What the handler hands to [json.NewEncoder(w).Encode]; a
    [*Temperature] is [None] when it is nil. *)
Inductive Encoded : Type :=
| EncMap (m : list (string * string))   (* a map[string]string *)
| EncTemperature (t : option Temperature).

(** What the libraries, the process environment and the network answer. *)
Record Env : Type := mkEnv {
  (** [json.NewDecoder(r.Body).Decode(&data)] on the request body *)
  Decode_CepRequest : string -> Result CepRequest;
  (** [os.Getenv] *)
  Getenv : string -> string;
  (** [url.Parse], inside [http.NewRequestWithContext] *)
  url_Parse_error : string -> option error;
  (** [client.Do] and [io.ReadAll] *)
  network : Request -> RoundTrip;
  (** [errResp] after [_ = json.Unmarshal(body, &errResp)] *)
  Unmarshal_errResp : string -> ErrResp;
  (** [json.Unmarshal(body, &temperature)] *)
  Unmarshal_Temperature : string -> Result Temperature
}.

Section Program.
Variable env : Env.

Definition callServiceB (cep : string)
  : M Encoded (option Temperature * Z * option error) :=
  let serviceBURL := Getenv env "SERVICE_B_URL" in
  let serviceBURL :=
    if (serviceBURL =? "")%string then "http://localhost:8090"
    else serviceBURL in
  let url := serviceBURL ++ "/" ++ cep in
  Start "callServiceB" ;;
  match NewRequestWithContext (url_Parse_error env) "GET" url with
  | Err err =>
      ret (None, StatusInternalServerError,
           Some (wrap "failed to create request" err))
  | Ok req =>
      resp <- Do (network env) req ;;
      match resp with
      | DoFailed err =>
          ret (None, StatusInternalServerError,
               Some (wrap "failed to call ServiceB" err))
      | ReadFailed _ err =>
          ret (None, StatusInternalServerError,
               Some (wrap "failed to read response body" err))
      | Responded StatusCode body =>
          if negb (StatusCode =? StatusOK)%Z then
            let errResp := Unmarshal_errResp env body in
            let errMsg := Error errResp in
            let errMsg := if (errMsg =? "")%string then body else errMsg in
            ret (None, StatusCode, Some errMsg)
          else
            match Unmarshal_Temperature env body with
            | Err err =>
                ret (None, StatusInternalServerError,
                     Some (wrap "failed to parse response" err))
            | Ok temperature => ret (Some temperature, StatusOK, None)
            end
      end
  end.

(** [ValidateAndProcessCep], with [body] the bytes of [r.Body]. *)
Definition ValidateAndProcessCep (body : string) : M Encoded unit :=
  Start "ValidateAndProcessCep" ;;
  match Decode_CepRequest env body with
  | Err _ =>
      WriteHeader StatusUnprocessableEntity ;;
      Encode (EncMap [("error", "invalid zipcode")])
  | Ok data =>
      if negb (MatchString validCepRegex (Cep data)) then
        WriteHeader StatusUnprocessableEntity ;;
        Encode (EncMap [("error", "invalid zipcode")])
      else
        r <- callServiceB (Cep data) ;;
        let '(temperature, statusCode, err) := r in
        match err with
        | Some err =>
            WriteHeader statusCode ;;
            Encode (EncMap [("error", err)])
        | None =>
            WriteHeader StatusOK ;;
            Encode (EncTemperature temperature)
        end
  end.
End Program.

End ServiceA.

(** ** The property of a CEP that the specification asks for *)

Definition ascii_digits : list ascii :=
  ["0"; "1"; "2"; "3"; "4"; "5"; "6"; "7"; "8"; "9"]%char.

Definition is_ascii_digit (c : ascii) : Prop := In c ascii_digits.

(** Exactly 8 ASCII digits, nothing before, between or after them. *)
Definition eight_ascii_digits (s : string) : Prop :=
  String.length s = 8%nat /\ Forall is_ascii_digit (list_ascii_of_string s).

(** [takeClass lo hi n s]: what is left of [s] after [n] leading characters
    of the class [[lo-hi]], when [s] starts with that many. *)
Fixpoint takeClass (lo hi : ascii) (n : nat) (s : string) : option string :=
  match n with
  | O => Some s
  | S n' =>
      match s with
      | EmptyString => None
      | String c rest =>
          if inClass lo hi c then takeClass lo hi n' rest else None
      end
  end.

(** What a computation returns when it is run from the initial state. *)
Definition outcome {P A : Type} (m : M P A) : A := fst (m initial).

(** The requests that the adapters of ServiceB send. *)
Definition directoryRequest (cep : string) : Request :=
  mkRequest "GET" ("https://cep.awesomeapi.com.br/json/" ++ cep).

Definition forecastRequest (latitude longitude : string) : Request :=
  mkRequest "GET"
    ("https://api.open-meteo.com/v1/forecast?latitude=" ++ latitude
     ++ "&longitude=" ++ longitude ++ "&current=temperature_2m").

(** The request that the gateway sends to ServiceB. *)
Definition serviceBRequest (env : ServiceA.Env) (cep : string) : Request :=
  let serviceBURL := ServiceA.Getenv env "SERVICE_B_URL" in
  mkRequest "GET"
    ((if (serviceBURL =? "")%string then "http://localhost:8090"
      else serviceBURL) ++ "/" ++ cep).

(** The two error bodies, as values of [map[string]string]. *)
Definition invalidZipcode : list (string * string) :=
  [("error", "invalid zipcode")].

Definition canNotFindZipcode : list (string * string) :=
  [("error", "can not find zipcode")].

(** ** The two services on one wire

    [relay v] is the value of ServiceB as the gateway writes it, and
    [gatewayReads env body v] says that the body in which ServiceB has
    encoded [v] is read back as [v] by the decoders of the gateway. *)

Definition relayTemperature (t : ServiceB.Temperature) : ServiceA.Temperature :=
  {| ServiceA.City := ServiceB.TCity t;
     ServiceA.TempC := ServiceB.TempC t;
     ServiceA.TempF := ServiceB.TempF t;
     ServiceA.TempK := ServiceB.TempK t |}.

Definition relay (v : ServiceB.Encoded) : ServiceA.Encoded :=
  match v with
  | ServiceB.EncMap m => ServiceA.EncMap m
  | ServiceB.EncTemperature t =>
      ServiceA.EncTemperature (Some (relayTemperature t))
  end.

Definition gatewayReads (env : ServiceA.Env) (body : string)
    (v : ServiceB.Encoded) : Prop :=
  match v with
  | ServiceB.EncMap m =>
      m = [("error", ServiceA.Error (ServiceA.Unmarshal_errResp env body))]
  | ServiceB.EncTemperature t =>
      ServiceA.Unmarshal_Temperature env body = Ok (relayTemperature t)
  end.

(** ** The paths through [ServiceB.HandlerCep]

    One constructor for each [return] of the handler, with the state in
    which the handler leaves the request.  [HandlerCep_path] below shows
    that every run of the handler is described by one of them. *)

Module PathB.
Import ServiceB.

Definition writer (code : Z) (v : Encoded) : ResponseWriter Encoded :=
  mkWriter (Some code) [v].

Inductive path (env : Env) (cep : string) : State Encoded -> Prop :=
| invalid :
    (cep =? "")%string || negb (MatchString validCepRegex cep) = true ->
    path env cep
      (mkState ["HandlerCep"] []
         (writer StatusUnprocessableEntity (EncMap invalidZipcode)))
| directory_failed (err : error) (calls : list Request) :
    (cep =? "")%string || negb (MatchString validCepRegex cep) = false ->
    outcome (CepAwesomeapi env cep) = Err err ->
    calls = [] \/ calls = [directoryRequest cep] ->
    path env cep
      (mkState ["HandlerCep"; "CepAwesomeapi"] calls
         (writer StatusNotFound (EncMap canNotFindZipcode)))
| weather_failed (cepResponse : CepAwesomeapiResponse) (err : error)
    (calls : list Request) :
    (cep =? "")%string || negb (MatchString validCepRegex cep) = false ->
    outcome (CepAwesomeapi env cep) = Ok cepResponse ->
    outcome (WeatherApi env (Latitude cepResponse) (Longitude cepResponse))
      = Err err ->
    calls = [] \/
    calls = [forecastRequest (Latitude cepResponse) (Longitude cepResponse)] ->
    path env cep
      (mkState ["HandlerCep"; "CepAwesomeapi"; "WeatherApi"]
         (directoryRequest cep :: calls)
         (writer StatusNotFound (EncMap canNotFindZipcode)))
| success (cepResponse : CepAwesomeapiResponse)
    (weatherResponse : WeatherApiResponse) :
    (cep =? "")%string || negb (MatchString validCepRegex cep) = false ->
    outcome (CepAwesomeapi env cep) = Ok cepResponse ->
    outcome (WeatherApi env (Latitude cepResponse) (Longitude cepResponse))
      = Ok weatherResponse ->
    let tempC := Temperature2M (Current weatherResponse) in
    path env cep
      (mkState ["HandlerCep"; "CepAwesomeapi"; "WeatherApi"]
         [directoryRequest cep;
          forecastRequest (Latitude cepResponse) (Longitude cepResponse)]
         (writer StatusOK
            (EncTemperature
               {| TCity := City cepResponse;
                  TempC := tempC;
                  TempF := tempC * 1.8 + 32;
                  TempK := tempC + 273.15 |}))).
End PathB.

(** ** Canned environments

    Stand-ins for the libraries and the network with a handful of recorded
    answers, on which the handlers can be run. *)

Module Fixture.

Definition quote (s : string) : string :=
  String "034"%char (s ++ String "034"%char "").

Definition member (key value : string) : string := quote key ++ ":" ++ value.

Definition object (members : list string) : string :=
  "{" ++ String.concat "," members ++ "}".

Definition lookup {A : Type} (table : list (string * A)) (key : string)
  : option A :=
  option_map snd (find (fun kv => (fst kv =? key)%string) table).

Definition syntaxError : error := "invalid syntax".
Definition jsonError : error := "unexpected end of JSON input".

Module B.
Import ServiceB.

Definition vitoria : CepAwesomeapiResponse :=
  {| Cep := "29902555"; AddressType := "Rua"; AddressName := "";
     Address := ""; State_ := "ES"; District := "";
     Latitude := "-20.31"; Longitude := "-40.33"; City := "Vitória";
     Ibge := ""; Ddd := "27" |}.

Definition se : CepAwesomeapiResponse :=
  {| Cep := "01001000"; AddressType := "Praça"; AddressName := "da Sé";
     Address := "Praça da Sé"; State_ := "SP"; District := "Sé";
     Latitude := "-23.55"; Longitude := "-46.63"; City := "São Paulo";
     Ibge := ""; Ddd := "11" |}.

(** Coordinates that are not numbers. *)
Definition nowhere : CepAwesomeapiResponse :=
  {| Cep := "70040010"; AddressType := ""; AddressName := "";
     Address := ""; State_ := "DF"; District := "";
     Latitude := "n/a"; Longitude := "n/a"; City := "Brasília";
     Ibge := ""; Ddd := "61" |}.

(** The success-shaped answer for an unknown code: no [cep] member. *)
Definition unknown : CepAwesomeapiResponse :=
  {| Cep := ""; AddressType := ""; AddressName := ""; Address := "";
     State_ := ""; District := ""; Latitude := ""; Longitude := "";
     City := ""; Ibge := ""; Ddd := "" |}.

Definition vitoriaBody : string :=
  object [member "cep" (quote "29902555"); member "lat" (quote "-20.31");
          member "lng" (quote "-40.33"); member "city" (quote "Vitória")].
Definition seBody : string :=
  object [member "cep" (quote "01001000"); member "lat" (quote "-23.55");
          member "lng" (quote "-46.63"); member "city" (quote "São Paulo")].
Definition nowhereBody : string :=
  object [member "cep" (quote "70040010"); member "lat" (quote "n/a");
          member "lng" (quote "n/a"); member "city" (quote "Brasília")].
Definition unknownBody : string :=
  object [member "code" (quote "not_found")].

Definition reading (c : float) : WeatherApiResponse :=
  {| WLatitude := -20.25; WLongitude := -40.25; GenerationtimeMs := 0.5;
     UtcOffsetSeconds := 0; Timezone := "GMT";
     TimezoneAbbreviation := "GMT"; Elevation := 8;
     Units := mkCurrentUnits "iso8601" "seconds" "°C";
     Current := mkCurrent "2024-01-01T12:00" 900 c |}.

Definition weatherBody : string :=
  object [member "current" (object [member "temperature_2m" "28.5"])].

Definition directory (cep : string) : string :=
  "https://cep.awesomeapi.com.br/json/" ++ cep.
Definition forecast (lat lon : string) : string :=
  "https://api.open-meteo.com/v1/forecast?latitude=" ++ lat
  ++ "&longitude=" ++ lon ++ "&current=temperature_2m".

Definition answers : list (string * RoundTrip) :=
  [ (directory "29902555", Responded 200 vitoriaBody);
    (directory "01001000", Responded 200 seBody);
    (directory "70040010", Responded 200 nowhereBody);
    (directory "99999999", Responded 200 unknownBody);
    (directory "00000000", Responded 404 "");
    (forecast "-20.31" "-40.33", Responded 200 weatherBody);
    (forecast "-23.55" "-46.63", Responded 500 "") ].

Definition env : Env := {|
  url_Parse_error := fun _ => None;
  network := fun req =>
    match lookup answers (URL req) with
    | Some r => r
    | None => DoFailed "no such host"
    end;
  Unmarshal_CepAwesomeapiResponse := fun body =>
    match lookup [(vitoriaBody, vitoria); (seBody, se);
                  (nowhereBody, nowhere); (unknownBody, unknown)] body with
    | Some r => Ok r
    | None => Err jsonError
    end;
  Unmarshal_WeatherApiResponse := fun body =>
    match lookup [(weatherBody, reading 28.5)] body with
    | Some r => Ok r
    | None => Err jsonError
    end;
  ParseFloat := fun s =>
    match lookup [("-20.31", -20.31); ("-40.33", -40.33);
                  ("-23.55", -23.55); ("-46.63", -46.63)] s with
    | Some f => Ok f
    | None => Err syntaxError
    end
|}.
End B.

Module A.
Import ServiceA.

Definition request (cep : string) : string :=
  object [member "cep" (quote cep)].

Definition vitoria : Temperature :=
  {| City := "Vitória"; TempC := 28.5; TempF := 0x1.4d33333333334p+6;
     TempK := 301.65 |}.

Definition temperatureBody : string :=
  object [member "city" (quote "Vitória"); member "temp_C" "28.5";
          member "temp_F" "83.30000000000001"; member "temp_K" "301.65"].

Definition notFoundBody : string :=
  object [member "error" (quote "can not find zipcode")].

Definition answers : list (string * RoundTrip) :=
  [ ("http://localhost:8090/29902555", Responded 200 temperatureBody);
    ("http://localhost:8090/00000000", Responded 404 notFoundBody);
    ("http://localhost:8090/55555555", Responded 503 "upstream down") ].

Definition env : Env := {|
  Decode_CepRequest := fun body =>
    match lookup [(request "29902555", mkCepRequest "29902555");
                  (request "00000000", mkCepRequest "00000000");
                  (request "55555555", mkCepRequest "55555555");
                  (request "123", mkCepRequest "123")] body with
    | Some r => Ok r
    | None => Err jsonError
    end;
  Getenv := fun _ => "";
  url_Parse_error := fun _ => None;
  network := fun req =>
    match lookup answers (URL req) with
    | Some r => r
    | None => DoFailed "connection refused"
    end;
  Unmarshal_errResp := fun body =>
    match lookup [(notFoundBody, mkErrResp "can not find zipcode")] body with
    | Some r => r
    | None => mkErrResp ""
    end;
  Unmarshal_Temperature := fun body =>
    match lookup [(temperatureBody, vitoria)] body with
    | Some t => Ok t
    | None => Err jsonError
    end
|}.
End A.

End Fixture.

(** ** initProvider (ServiceA/main.go and ServiceB/main.go)

    The two programs have the same [initProvider], up to the service name.
    The handles of the OpenTelemetry and gRPC libraries are opaque types;
    what their constructors answer is a record of functions, and the state
    is made of the two globals of [otel] that the function sets. *)

Module Telemetry.

Section Provider.
Variables Resource ClientConn Exporter : Type.

Inductive Sampler : Type := AlwaysSample.

Inductive SpanProcessor : Type :=
| BatchSpanProcessor (exporter : Exporter).

Record TracerProvider : Type := mkTracerProvider {
  sampler : Sampler;
  resource : Resource;
  spanProcessor : SpanProcessor
}.

Inductive TextMapPropagator : Type := TraceContext.

(** The globals of [otel]; [None] is the default that [otel] starts with. *)
Record Globals : Type := mkGlobals {
  tracerProvider : option TracerProvider;
  textMapPropagator : option TextMapPropagator
}.

Record Env : Type := mkEnv {
  (** [resource.New(ctx, resource.WithAttributes(semconv.ServiceName(name)))] *)
  resource_New : string -> Result Resource;
  (** [grpc.NewClient(target, insecure credentials)] *)
  grpc_NewClient : string -> Result ClientConn;
  (** [otlptracegrpc.New(ctx, otlptracegrpc.WithGRPCConn(conn))], under a
      context that expires after one second *)
  otlptracegrpc_New : ClientConn -> Result Exporter
}.

(** [initProvider]; the function it returns is [tracerProvider.Shutdown],
    given here as the provider. *)
Definition initProvider (env : Env) (serviceName : string) (g : Globals)
  : Result TracerProvider * Globals :=
  match resource_New env serviceName with
  | Err err => (Err (wrap "failed to create resource" err), g)
  | Ok res =>
      match grpc_NewClient env "otel-collector:4317" with
      | Err err =>
          (Err (wrap "failed to create gRPC connection to collector" err), g)
      | Ok conn =>
          match otlptracegrpc_New env conn with
          | Err err => (Err (wrap "failed to create trace exporter" err), g)
          | Ok traceExporter =>
              let bsp := BatchSpanProcessor traceExporter in
              let tracerProvider := mkTracerProvider AlwaysSample res bsp in
              (Ok tracerProvider,
               mkGlobals (Some tracerProvider) (Some TraceContext))
          end
      end
  end.
End Provider.

End Telemetry.

(** ** More canned environments: outages and configuration *)

Module Outage.
Import Fixture.

(** The gateway with ServiceB unreachable. *)
Definition unreachable : ServiceA.Env := {|
  ServiceA.Decode_CepRequest := ServiceA.Decode_CepRequest A.env;
  ServiceA.Getenv := ServiceA.Getenv A.env;
  ServiceA.url_Parse_error := ServiceA.url_Parse_error A.env;
  ServiceA.network := fun _ => DoFailed "connection refused";
  ServiceA.Unmarshal_errResp := ServiceA.Unmarshal_errResp A.env;
  ServiceA.Unmarshal_Temperature := ServiceA.Unmarshal_Temperature A.env
|}.

(** The gateway with an answer whose body breaks off. *)
Definition truncated : ServiceA.Env := {|
  ServiceA.Decode_CepRequest := ServiceA.Decode_CepRequest A.env;
  ServiceA.Getenv := ServiceA.Getenv A.env;
  ServiceA.url_Parse_error := ServiceA.url_Parse_error A.env;
  ServiceA.network := fun _ => ReadFailed 200 "unexpected EOF";
  ServiceA.Unmarshal_errResp := ServiceA.Unmarshal_errResp A.env;
  ServiceA.Unmarshal_Temperature := ServiceA.Unmarshal_Temperature A.env
|}.

(** The gateway behind a proxy that answers 200 with a page of its own. *)
Definition proxied : ServiceA.Env := {|
  ServiceA.Decode_CepRequest := ServiceA.Decode_CepRequest A.env;
  ServiceA.Getenv := ServiceA.Getenv A.env;
  ServiceA.url_Parse_error := ServiceA.url_Parse_error A.env;
  ServiceA.network := fun _ => Responded 200 "<html>welcome</html>";
  ServiceA.Unmarshal_errResp := ServiceA.Unmarshal_errResp A.env;
  ServiceA.Unmarshal_Temperature := ServiceA.Unmarshal_Temperature A.env
|}.

(** The gateway with [SERVICE_B_URL] set to a URL that does not parse. *)
Definition misconfigured : ServiceA.Env := {|
  ServiceA.Decode_CepRequest := ServiceA.Decode_CepRequest A.env;
  ServiceA.Getenv := fun key =>
    if (key =? "SERVICE_B_URL")%string then "http://service b:8090" else "";
  ServiceA.url_Parse_error := fun _ => Some "invalid character in host name";
  ServiceA.network := ServiceA.network A.env;
  ServiceA.Unmarshal_errResp := ServiceA.Unmarshal_errResp A.env;
  ServiceA.Unmarshal_Temperature := ServiceA.Unmarshal_Temperature A.env
|}.

(** The gateway with [SERVICE_B_URL] set as in the compose file. *)
Definition configured : ServiceA.Env := {|
  ServiceA.Decode_CepRequest := ServiceA.Decode_CepRequest A.env;
  ServiceA.Getenv := fun key =>
    if (key =? "SERVICE_B_URL")%string then "http://serviceb:8090" else "";
  ServiceA.url_Parse_error := ServiceA.url_Parse_error A.env;
  ServiceA.network := fun req =>
    if (URL req =? "http://serviceb:8090/29902555")%string
    then Responded 200 A.temperatureBody
    else DoFailed "no such host";
  ServiceA.Unmarshal_errResp := ServiceA.Unmarshal_errResp A.env;
  ServiceA.Unmarshal_Temperature := ServiceA.Unmarshal_Temperature A.env
|}.

(** ServiceB with the directory answering 503 with a well-formed record. *)
Definition directoryDown : ServiceB.Env := {|
  ServiceB.url_Parse_error := ServiceB.url_Parse_error B.env;
  ServiceB.network := fun _ => Responded 503 B.vitoriaBody;
  ServiceB.Unmarshal_CepAwesomeapiResponse :=
    ServiceB.Unmarshal_CepAwesomeapiResponse B.env;
  ServiceB.Unmarshal_WeatherApiResponse :=
    ServiceB.Unmarshal_WeatherApiResponse B.env;
  ServiceB.ParseFloat := ServiceB.ParseFloat B.env
|}.

End Outage.

(** ** The two ways of compiling [tempC*1.8 + 32]

    Go lets a compiler fuse a multiplication and an addition into one
    operation that rounds once; it does so on arm64 and on amd64 with
    [GOAMD64=v3], and rounds the product first on the default amd64 build.
    [ServiceB.HandlerCep] is the handler of the build that rounds twice;
    [Build.HandlerCep] is the handler on either build. *)

Module Build.
Import ServiceB.

(** [x*y + z] rounded once to nearest even, on specified floats: the
    product is kept exact and the sum is rounded. *)
Definition SFfma (x y z : spec_float) : spec_float :=
  match x, y with
  | S754_nan, _ | _, S754_nan => S754_nan
  | S754_infinity _, S754_zero _ | S754_zero _, S754_infinity _ => S754_nan
  | S754_infinity sx, S754_infinity sy
  | S754_infinity sx, S754_finite sy _ _
  | S754_finite sx _ _, S754_infinity sy =>
      match z with
      | S754_nan => S754_nan
      | S754_infinity sz =>
          if Bool.eqb (xorb sx sy) sz then z else S754_nan
      | _ => S754_infinity (xorb sx sy)
      end
  | S754_zero sx, S754_zero sy
  | S754_zero sx, S754_finite sy _ _
  | S754_finite sx _ _, S754_zero sy =>
      match z with
      | S754_zero sz => S754_zero (xorb sx sy && sz)
      | _ => z
      end
  | S754_finite sx mx ex, S754_finite sy my ey =>
      match z with
      | S754_nan => S754_nan
      | S754_infinity _ => z
      | S754_zero _ =>
          binary_normalize prec emax
            (cond_Zopp (xorb sx sy) (Zpos (mx * my))) (ex + ey) false
      | S754_finite sz mz ez =>
          let e := Z.min (ex + ey) ez in
          let p := cond_Zopp (xorb sx sy)
                     (Zpos (fst (shl_align (mx * my) (ex + ey) e))) in
          let q := cond_Zopp sz (Zpos (fst (shl_align mz ez e))) in
          binary_normalize prec emax (p + q) e false
      end
  end.

Definition fma (x y z : float) : float :=
  SF2Prim (SFfma (Prim2SF x) (Prim2SF y) (Prim2SF z)).

Inductive MulAdd : Type :=
| Separate   (* the product is rounded, then the sum *)
| Fused      (* one rounding *).

Definition muladd (b : MulAdd) (x y z : float) : float :=
  match b with
  | Separate => x * y + z
  | Fused => fma x y z
  end.

(** [HandlerCep] as the build [b] runs it. *)
Definition HandlerCep (b : MulAdd) (env : Env) (cep : string)
  : M Encoded unit :=
  Start "HandlerCep" ;;
  if (cep =? "")%string || negb (MatchString validCepRegex cep) then
    WriteHeader StatusUnprocessableEntity ;;
    Encode (EncMap [("error", "invalid zipcode")])
  else
    r <- CepAwesomeapi env cep ;;
    match r with
    | Err _ =>
        WriteHeader StatusNotFound ;;
        Encode (EncMap [("error", "can not find zipcode")])
    | Ok cepResponse =>
        r' <- WeatherApi env (Latitude cepResponse) (Longitude cepResponse) ;;
        match r' with
        | Err _ =>
            WriteHeader StatusNotFound ;;
            Encode (EncMap [("error", "can not find zipcode")])
        | Ok weatherResponse =>
            let tempC := Temperature2M (Current weatherResponse) in
            let result := {|
              TCity := City cepResponse;
              TempC := tempC;
              TempF := muladd b tempC 1.8 32;
              TempK := tempC + 273.15
            |} in
            WriteHeader StatusOK ;;
            Encode (EncTemperature result)
        end
    end.

End Build.

(** ** A decimal number, as the specification words it

    An optional sign, digits with an optional point among them, and an
    optional exponent: [e] or [E], an optional sign and digits. *)




(** ** strconv.ParseFloat: the special values

    Besides decimal and hexadecimal floating-point numbers,
    [strconv.ParseFloat] accepts "NaN" and the possibly signed "Inf" and
    "Infinity", in any case of the letters.  [special] is that part of the
    parser, for a whole string. *)

Module Strconv.





End Strconv.

(** ** Canned environments for answers that cannot be relayed *)

Module Oddities.
Import Fixture.

(** The gateway in front of a server that answers with the status 099. *)
Definition status099 : ServiceA.Env := {|
  ServiceA.Decode_CepRequest := ServiceA.Decode_CepRequest A.env;
  ServiceA.Getenv := ServiceA.Getenv A.env;
  ServiceA.url_Parse_error := ServiceA.url_Parse_error A.env;
  ServiceA.network := fun _ => Responded 99 A.notFoundBody;
  ServiceA.Unmarshal_errResp := ServiceA.Unmarshal_errResp A.env;
  ServiceA.Unmarshal_Temperature := ServiceA.Unmarshal_Temperature A.env
|}.



End Oddities.

(** * Properties *)

(** ** The CEP pattern *)

Section CepPattern.

Lemma inClass_digit (c : ascii) :
  inClass "0" "9" c = existsb (Ascii.eqb c) ascii_digits.
Proof.
  destruct c as [b0 b1 b2 b3 b4 b5 b6 b7].
  destruct b0, b1, b2, b3, b4, b5, b6, b7; reflexivity.
Qed.

Lemma inClass_is_ascii_digit (c : ascii) :
  inClass "0" "9" c = true <-> is_ascii_digit c.
Proof.
  rewrite inClass_digit, existsb_exists. unfold is_ascii_digit. split.
  - intros [d [Hin Heq]]. apply Ascii.eqb_eq in Heq. now subst.
  - intros Hin. exists c. split; [assumption | apply Ascii.eqb_refl].
Qed.

Lemma iter_flat_map_nil {A : Type} (f : A -> list A) (n : nat) :
  iter n (flat_map f) [] = [].
Proof. induction n as [|n IH]; simpl; auto. Qed.

(** A repetition of a character class consumes [n] characters of the
    class, or fails. *)
Lemma matchAt_repeat_class (lo hi : ascii) (n : nat) :
  forall (off : nat) (s : string),
    matchAt (OpRepeat n (OpCharClass lo hi)) (off, s) =
    match takeClass lo hi n s with
    | Some rest => [((n + off)%nat, rest)]
    | None => []
    end.
Proof.
  induction n as [|n IH]; intros off s; [reflexivity|].
  simpl in *. destruct s as [|c rest]; simpl.
  - apply iter_flat_map_nil.
  - destruct (inClass lo hi c); simpl.
    + rewrite IH. destruct (takeClass lo hi n rest); [|reflexivity].
      now rewrite Nat.add_succ_r.
    + apply iter_flat_map_nil.
Qed.

Lemma takeClass_all (lo hi : ascii) (n : nat) :
  forall s : string,
    takeClass lo hi n s = Some "" <->
    String.length s = n /\
    Forall (fun c => inClass lo hi c = true) (list_ascii_of_string s).
Proof.
  induction n as [|n IH]; intros s; simpl.
  - split.
    + intros H. injection H as ->. split; [reflexivity | constructor].
    + intros [Hlen _]. destruct s; [reflexivity | discriminate].
  - destruct s as [|c rest]; simpl.
    + split; [discriminate | intros [H _]; discriminate].
    + destruct (inClass lo hi c) eqn:Hc.
      * rewrite IH. split.
        -- intros [Hlen Hall]. split; [now f_equal | now constructor].
        -- intros [Hlen Hall]. inversion Hall; subst. split; [lia | assumption].
      * split; [discriminate|].
        intros [_ Hall]. inversion Hall; subst. congruence.
Qed.

(** The pattern is anchored at both ends: it matches at offset 0 only,
    and only when 8 digits are the whole text. *)
Lemma matchAt_cepPattern (off : nat) (s : string) :
  matchAt cepPattern (off, s) =
  match off, takeClass "0" "9" 8 s with
  | O, Some EmptyString => [(8%nat, "")]
  | _, _ => []
  end.
Proof.
  unfold cepPattern, perl_d.
  change (matchAt (OpConcat ?a ?b) ?p)
    with (flat_map (matchAt b) (matchAt a p)).
  destruct off as [|off].
  - change (matchAt OpBeginText (0%nat, s)) with [(0%nat, s)].
    cbn [flat_map]. rewrite app_nil_r.
    change (matchAt (OpConcat ?a ?b) ?p)
    with (flat_map (matchAt b) (matchAt a p)).
    rewrite matchAt_repeat_class.
    destruct (takeClass "0" "9" 8 s) as [[|c rest]|]; reflexivity.
  - destruct (takeClass "0" "9" 8 s) as [[|c rest]|]; reflexivity.
Qed.

Lemma search_cepPattern_off (s : string) :
  forall off : nat, search cepPattern (S off) s = false.
Proof.
  induction s as [|c rest IH]; intros off;
    unfold search; fold search; rewrite matchAt_cepPattern; auto.
Qed.

Lemma MatchString_takeClass (s : string) :
  MatchString cepPattern s = true <-> takeClass "0" "9" 8 s = Some "".
Proof.
  unfold MatchString.
  destruct s as [|c rest]; unfold search; fold search;
    rewrite matchAt_cepPattern.
  - simpl. split; discriminate.
  - rewrite search_cepPattern_off.
    destruct (takeClass "0" "9" 8 (String c rest)) as [[|c' rest']|];
      split; congruence.
Qed.

(** [MatchString] accepts exactly the strings of 8 ASCII digits. *)
Lemma MatchString_cepPattern (s : string) :
  MatchString cepPattern s = true <-> eight_ascii_digits s.
Proof.
  rewrite MatchString_takeClass, takeClass_all. unfold eight_ascii_digits.
  split; intros [Hlen Hall]; (split; [assumption|]);
    eapply Forall_impl; try eassumption; intros c; apply inClass_is_ascii_digit.
Qed.

Lemma MatchString_cepPattern_false (s : string) :
  MatchString cepPattern s = false <-> ~ eight_ascii_digits s.
Proof.
  rewrite <- MatchString_cepPattern.
  destruct (MatchString cepPattern s); split; congruence.
Qed.

Lemma eight_ascii_digits_nonempty (s : string) :
  eight_ascii_digits s -> (s =? "")%string = false.
Proof. intros [Hlen _]. destruct s; [discriminate | reflexivity]. Qed.

End CepPattern.

(** ** ServiceB: the adapters *)

Section Adapters.
Import ServiceB.
Variable env : Env.

(** An adapter's answer does not depend on the state it is called in; it
    starts its span, leaves the response writer alone and sends at most
    its one request. *)
Lemma CepAwesomeapi_run (cep : string) (st : State Encoded) :
  panicked st = None ->
  exists calls : list Request,
    CepAwesomeapi env cep st =
    (outcome (CepAwesomeapi env cep),
     mkState (spans st ++ ["CepAwesomeapi"]) (sent st ++ calls) (w st))
    /\ (calls = [] \/ calls = [directoryRequest cep])
    /\ (forall r, outcome (CepAwesomeapi env cep) = Ok r ->
        calls = [directoryRequest cep]).
Proof.
  intros Hp. destruct st as [sp se wr pa]. cbn in Hp. subst pa.
  unfold outcome, CepAwesomeapi, NewRequestWithContext, bind, Start, Do, ret,
    mkState, initial.
  fold (directoryRequest cep).
  destruct (url_Parse_error env _); simpl.
  - exists []. rewrite app_nil_r. repeat split; auto. discriminate.
  - exists [directoryRequest cep]. unfold directoryRequest.
    destruct (network env _) as [err|code err|code body]; simpl;
      [now auto | now auto |].
    destruct (code =? StatusNotFound)%Z; [now auto|].
    destruct (code =? StatusOK)%Z; simpl; [|now auto].
    destruct (Unmarshal_CepAwesomeapiResponse env body) as [r|err];
      [|now auto].
    destruct (Cep r =? "")%string; now auto.
Qed.

Lemma WeatherApi_run (latitude longitude : string) (st : State Encoded) :
  panicked st = None ->
  exists calls : list Request,
    WeatherApi env latitude longitude st =
    (outcome (WeatherApi env latitude longitude),
     mkState (spans st ++ ["WeatherApi"]) (sent st ++ calls) (w st))
    /\ (calls = [] \/ calls = [forecastRequest latitude longitude])
    /\ (forall r, outcome (WeatherApi env latitude longitude) = Ok r ->
        calls = [forecastRequest latitude longitude]).
Proof.
  intros Hp. destruct st as [sp se wr pa]. cbn in Hp. subst pa.
  unfold outcome, WeatherApi, NewRequestWithContext, bind, Start, Do, ret,
    mkState, initial.
  fold (forecastRequest latitude longitude).
  destruct (ParseFloat env latitude); simpl;
    [|exists []; rewrite app_nil_r; repeat split; auto; discriminate].
  destruct (ParseFloat env longitude); simpl;
    [|exists []; rewrite app_nil_r; repeat split; auto; discriminate].
  destruct (url_Parse_error env _); simpl.
  - exists []. rewrite app_nil_r. repeat split; auto. discriminate.
  - exists [forecastRequest latitude longitude]. unfold forecastRequest.
    destruct (network env _) as [err|code err|code body]; simpl;
      [now auto | now auto |].
    destruct (code =? StatusOK)%Z; simpl; [|now auto].
    destruct (Unmarshal_WeatherApiResponse env body) as [r|err]; now auto.
Qed.

(** What the adapters return, read off the answers of the environment. *)
Lemma CepAwesomeapi_outcome (cep : string) :
  outcome (CepAwesomeapi env cep) =
  match url_Parse_error env (URL (directoryRequest cep)) with
  | Some err => Err err
  | None =>
      match network env (directoryRequest cep) with
      | DoFailed err => Err err
      | ReadFailed _ err => Err err
      | Responded code body =>
          if (code =? 404)%Z then Err "cep not found"
          else if negb (code =? 200)%Z then
            Err ("cep api returned " ++ itoa code)
          else
            match Unmarshal_CepAwesomeapiResponse env body with
            | Err err => Err err
            | Ok cepResponse =>
                if (Cep cepResponse =? "")%string then Err "cep not found"
                else Ok cepResponse
            end
      end
  end.
Proof.
  unfold outcome, CepAwesomeapi, NewRequestWithContext, bind, Start, Do, ret.
  unfold directoryRequest, StatusNotFound, StatusOK. cbn [URL].
  destruct (url_Parse_error env _); [reflexivity|]. cbn [fst].
  destruct (network env _) as [err|code err|code body]; try reflexivity.
  destruct (code =? 404)%Z; [reflexivity|].
  destruct (code =? 200)%Z; [|reflexivity]. cbn [negb].
  destruct (Unmarshal_CepAwesomeapiResponse env body) as [r|err];
    [|reflexivity].
  destruct (Cep r =? "")%string; reflexivity.
Qed.

Lemma WeatherApi_outcome (latitude longitude : string) :
  outcome (WeatherApi env latitude longitude) =
  match ParseFloat env latitude with
  | Err err => Err (wrap "invalid coordinates" err)
  | Ok _ =>
  match ParseFloat env longitude with
  | Err err => Err (wrap "invalid coordinates" err)
  | Ok _ =>
  match url_Parse_error env (URL (forecastRequest latitude longitude)) with
  | Some err => Err err
  | None =>
      match network env (forecastRequest latitude longitude) with
      | DoFailed err => Err err
      | ReadFailed _ err => Err err
      | Responded code body =>
          if negb (code =? 200)%Z then
            Err ("weather api returned " ++ itoa code)
          else Unmarshal_WeatherApiResponse env body
      end
  end end end.
Proof.
  unfold outcome, WeatherApi, NewRequestWithContext, bind, Start, Do, ret.
  unfold forecastRequest, StatusOK. cbn [URL].
  destruct (ParseFloat env latitude); [|reflexivity].
  destruct (ParseFloat env longitude); [|reflexivity].
  destruct (url_Parse_error env _); [reflexivity|]. cbn [fst].
  destruct (network env _) as [err|code err|code body]; try reflexivity.
  destruct (code =? 200)%Z; [|reflexivity]. cbn [negb].
  destruct (Unmarshal_WeatherApiResponse env body); reflexivity.
Qed.

End Adapters.

(** ** ServiceB: the handler *)

Section Handler.
Import ServiceB.
Variable env : Env.

(** Every run of the handler follows one of the four paths. *)
Lemma HandlerCep_path (cep : string) :
  PathB.path env cep (serve (HandlerCep env cep)).
Proof.
  unfold serve, HandlerCep.
  destruct ((cep =? "")%string || negb (MatchString validCepRegex cep))
    eqn:Hvalid.
  - now apply PathB.invalid.
  - unfold bind at 1.
    cbn [Start initial mkState spans sent w panicked app].
    unfold bind at 1.
    match goal with |- context [CepAwesomeapi env cep ?st] =>
      destruct (@CepAwesomeapi_run env cep st eq_refl)
        as (calls & -> & Hcalls & Hsent)
    end.
    cbn [mkState spans sent w panicked app].
    destruct (outcome (CepAwesomeapi env cep)) as [cepResponse|err] eqn:Hcep.
    + rewrite (Hsent _ eq_refl). clear Hcalls Hsent calls.
      unfold bind at 1.
      match goal with |- context [WeatherApi env ?la ?lo ?st] =>
        destruct (@WeatherApi_run env la lo st eq_refl)
          as (calls & -> & Hcalls & Hsent)
      end.
      cbn [mkState spans sent w panicked app].
      destruct (outcome (WeatherApi env _ _)) as [weatherResponse|err]
        eqn:Hweather.
      * rewrite (Hsent _ eq_refl). cbn.
        apply PathB.success; assumption.
      * cbn.
        apply PathB.weather_failed with (cepResponse := cepResponse)
                                        (err := err); assumption.
    + cbn. apply PathB.directory_failed with (err := err); assumption.
Qed.

Lemma valid_cep_passes (cep : string) :
  eight_ascii_digits cep ->
  (cep =? "")%string || negb (MatchString validCepRegex cep) = false.
Proof.
  intros Hcep. rewrite (eight_ascii_digits_nonempty Hcep).
  unfold validCepRegex.
  now rewrite (proj2 (MatchString_cepPattern cep) Hcep).
Qed.

Lemma invalid_cep_fails (cep : string) :
  ~ eight_ascii_digits cep ->
  (cep =? "")%string || negb (MatchString validCepRegex cep) = true.
Proof.
  intros Hcep. unfold validCepRegex.
  rewrite (proj2 (MatchString_cepPattern_false cep) Hcep).
  apply orb_true_r.
Qed.

Lemma directory_is_not_forecast (cep latitude longitude : string) :
  directoryRequest cep <> forecastRequest latitude longitude.
Proof. unfold directoryRequest, forecastRequest. simpl. discriminate. Qed.

(** Why the directory adapter fails: a URL that does not parse, a failed
    round trip, a status other than 200, a body that does not decode or a
    decoded body with an empty [cep]. *)
Lemma CepAwesomeapi_failure_reasons (cep : string) :
  (exists err, outcome (CepAwesomeapi env cep) = Err err) <->
  (exists err,
      url_Parse_error env (URL (directoryRequest cep)) = Some err) \/
  (exists err, network env (directoryRequest cep) = DoFailed err) \/
  (exists code err,
      network env (directoryRequest cep) = ReadFailed code err) \/
  (exists code body,
      network env (directoryRequest cep) = Responded code body /\
      (code <> 200%Z \/
       (exists err, Unmarshal_CepAwesomeapiResponse env body = Err err) \/
       (exists r, Unmarshal_CepAwesomeapiResponse env body = Ok r /\
                  Cep r = ""))).
Proof.
  rewrite CepAwesomeapi_outcome.
  destruct (url_Parse_error env _) as [e|] eqn:Hurl;
    [split; [eauto | intros _; eauto]|].
  destruct (network env _) as [e|code e|code body] eqn:Hnet;
    [split; [eauto 8 | intros _; eauto] ..|].
  destruct (Z.eqb_spec code 404) as [H404|H404].
  { split; [|intros _; eauto].
    intros _. do 3 right. exists code, body. split; [reflexivity|]. left.
    rewrite H404. discriminate. }
  destruct (Z.eqb_spec code 200) as [Hcode|Hcode]; cbn [negb].
  - destruct (Unmarshal_CepAwesomeapiResponse env body) as [r|e] eqn:Hbody.
    + destruct (String.eqb_spec (Cep r) "") as [Hempty|Hempty].
      * split; [|intros _; eauto].
        intros _. do 3 right. exists code, body. split; [reflexivity|].
        right. right. eauto.
      * split; [intros [? ?]; discriminate|].
        intros [[? ?]|[[? ?]|[(? & ? & ?)|(c & b & Heq & H)]]];
          try discriminate.
        injection Heq as <- <-.
        destruct H as [H|[[? H]|(r' & H & H')]]; congruence.
    + split; [|intros _; eauto].
      intros _. do 3 right. exists code, body. split; [reflexivity|].
      right. left. eauto.
  - split; [|intros _; eauto].
    intros _. do 3 right. exists code, body. split; [reflexivity|].
    left. exact Hcode.
Qed.

(** Why the weather adapter fails: a coordinate that does not parse, a
    URL that does not parse, a failed round trip, a status other than
    200 or a body that does not decode. *)
Lemma WeatherApi_failure_reasons (latitude longitude : string) :
  (exists err, outcome (WeatherApi env latitude longitude) = Err err) <->
  (exists err, ParseFloat env latitude = Err err) \/
  (exists err, ParseFloat env longitude = Err err) \/
  (exists err,
      url_Parse_error env (URL (forecastRequest latitude longitude))
      = Some err) \/
  (exists err,
      network env (forecastRequest latitude longitude) = DoFailed err) \/
  (exists code err,
      network env (forecastRequest latitude longitude)
      = ReadFailed code err) \/
  (exists code body,
      network env (forecastRequest latitude longitude)
      = Responded code body /\
      (code <> 200%Z \/
       exists err, Unmarshal_WeatherApiResponse env body = Err err)).
Proof.
  rewrite WeatherApi_outcome.
  destruct (ParseFloat env latitude) as [f|e];
    [|split; [eauto | intros _; eauto]].
  destruct (ParseFloat env longitude) as [g|e];
    [|split; [eauto | intros _; eauto]].
  destruct (url_Parse_error env _) as [e|] eqn:Hurl;
    [split; [eauto 6 | intros _; eauto]|].
  destruct (network env _) as [e|code e|code body] eqn:Hnet;
    [split; [eauto 8 | intros _; eauto] ..|].
  destruct (Z.eqb_spec code 200) as [Hcode|Hcode]; cbn [negb].
  - destruct (Unmarshal_WeatherApiResponse env body) as [r|e] eqn:Hbody.
    + split; [intros [? ?]; discriminate|].
      intros [[? ?]|[[? ?]|[[? ?]|[[? ?]|[(? & ? & ?)|(c & b & Heq & H)]]]]];
        try discriminate.
      injection Heq as <- <-. destruct H as [H|[? H]]; congruence.
    + split; [|intros _; eauto].
      intros _. do 5 right. exists code, body. eauto.
  - split; [|intros _; eauto].
    intros _. do 5 right. exists code, body. auto.
Qed.

(** C10: whatever the request and whatever the adapters answer, the
    handler of ServiceB leaves one of three responses: 200 with a
    temperature, 422 with the error "invalid zipcode", or 404 with the
    error "can not find zipcode"; its status is never 500. *)
Theorem HandlerCep_three_responses (cep : string) :
  let rw := w (serve (HandlerCep env cep)) in
  ((exists t, rw = mkWriter (Some 200%Z) [EncTemperature t])
   \/ rw = mkWriter (Some 422%Z) [EncMap [("error", "invalid zipcode")]]
   \/ rw = mkWriter (Some 404%Z) [EncMap [("error", "can not find zipcode")]])
  /\ status rw <> Some 500%Z.
Proof.
  cbv zeta. destruct (HandlerCep_path cep); cbn [w]; (split; [|discriminate]).
  - right. left. reflexivity.
  - right. right. reflexivity.
  - right. right. reflexivity.
  - left. eexists. reflexivity.
Qed.

Lemma directory_failure_state (cep : string) (err : error) :
  eight_ascii_digits cep ->
  outcome (CepAwesomeapi env cep) = Err err ->
  exists calls : list Request,
    serve (HandlerCep env cep)
    = mkState ["HandlerCep"; "CepAwesomeapi"] calls
        (mkWriter (Some 404%Z) [EncMap [("error", "can not find zipcode")]])
    /\ (calls = [] \/ calls = [directoryRequest cep]).
Proof.
  intros Hcep Herr.
  pose proof (valid_cep_passes Hcep) as Hpass.
  destruct (HandlerCep_path cep) as [Hv|e calls Hv Hdir Hcalls| |];
    try congruence.
  exists calls. split; [reflexivity | assumption].
Qed.

(** C3: for a valid CEP, when the directory adapter [CepAwesomeapi]
    returns an error (not found or any other failure), the handler
    answers 404 with the error "can not find zipcode", the weather adapter
    is not called (its span is never started) and no request goes to the
    weather API. *)
Theorem directory_failure_is_not_found (cep : string) (err : error) :
  eight_ascii_digits cep ->
  outcome (CepAwesomeapi env cep) = Err err ->
  let st := serve (HandlerCep env cep) in
  w st = mkWriter (Some 404%Z) [EncMap [("error", "can not find zipcode")]]
  /\ ~ In "WeatherApi" (spans st)
  /\ forall latitude longitude,
       ~ In (forecastRequest latitude longitude) (sent st).
Proof.
  intros Hcep Herr. cbv zeta.
  destruct (directory_failure_state Hcep Herr) as (calls & -> & Hcalls).
  cbn [w spans sent]. split; [reflexivity|]. split.
  - cbn. intros [H|[H|[]]]; discriminate.
  - intros latitude longitude Hin.
    destruct Hcalls as [->| ->]; [exact Hin|].
    destruct Hin as [Heq|[]].
    exact (directory_is_not_forecast Heq).
Qed.

(** C4: for a valid CEP, when the directory adapter succeeds and the
    weather adapter [WeatherApi] returns an error, whatever the reason
    (see [WeatherApi_failure_reasons]), the handler answers 404 with the
    error "can not find zipcode". *)
Theorem weather_failure_is_not_found (cep : string)
    (cepResponse : CepAwesomeapiResponse) (err : error) :
  eight_ascii_digits cep ->
  outcome (CepAwesomeapi env cep) = Ok cepResponse ->
  outcome (WeatherApi env (Latitude cepResponse) (Longitude cepResponse))
    = Err err ->
  w (serve (HandlerCep env cep))
  = mkWriter (Some 404%Z) [EncMap [("error", "can not find zipcode")]].
Proof.
  intros Hcep Hdir Herr.
  pose proof (valid_cep_passes Hcep) as Hpass.
  destruct (HandlerCep_path cep) as [Hv|e calls Hv Hd _|r e calls Hv Hd Hw _
                                    |r wr Hv Hd Hw]; try congruence.
  reflexivity.
Qed.

(** C5: when the directory API answers 200 and the decoded body has an
    empty [cep] member, [CepAwesomeapi] returns its not-found error (the
    one it returns for an upstream 404), and the handler, for a valid
    CEP, answers 404 with the error "can not find zipcode". *)
Theorem empty_cep_echo_is_not_found (cep body : string)
    (cepResponse : CepAwesomeapiResponse) :
  url_Parse_error env (URL (directoryRequest cep)) = None ->
  network env (directoryRequest cep) = Responded 200%Z body ->
  Unmarshal_CepAwesomeapiResponse env body = Ok cepResponse ->
  Cep cepResponse = "" ->
  outcome (CepAwesomeapi env cep) = Err "cep not found"
  /\ (eight_ascii_digits cep ->
      w (serve (HandlerCep env cep))
      = mkWriter (Some 404%Z) [EncMap [("error", "can not find zipcode")]]).
Proof.
  intros Hurl Hnet Hbody Hempty.
  assert (Hout : outcome (CepAwesomeapi env cep) = Err "cep not found").
  { rewrite CepAwesomeapi_outcome, Hurl, Hnet. cbn [Z.eqb Pos.eqb negb].
    rewrite Hbody, Hempty. reflexivity. }
  split; [exact Hout|].
  intros Hcep.
  destruct (directory_failure_state Hcep Hout) as (calls & -> & _).
  reflexivity.
Qed.



(** On the build that rounds the product first, [Build.HandlerCep] is
    [HandlerCep]. *)
Lemma HandlerCep_rounds_twice (cep : string) :
  Build.HandlerCep Build.Separate env cep = HandlerCep env cep.
Proof. reflexivity. Qed.

(** The path to 200 on either build. *)
Lemma HandlerCep_on_build (b : Build.MulAdd) (cep : string)
    (cepResponse : CepAwesomeapiResponse)
    (weatherResponse : WeatherApiResponse) :
  (cep =? "")%string || negb (MatchString validCepRegex cep) = false ->
  outcome (CepAwesomeapi env cep) = Ok cepResponse ->
  outcome (WeatherApi env (Latitude cepResponse) (Longitude cepResponse))
    = Ok weatherResponse ->
  let tempC := Temperature2M (Current weatherResponse) in
  w (serve (Build.HandlerCep b env cep))
  = mkWriter (Some 200%Z)
      [EncTemperature {| TCity := City cepResponse; TempC := tempC;
                         TempF := Build.muladd b tempC 1.8 32;
                         TempK := tempC + 273.15 |}].
Proof.
  intros Hvalid Hcep Hweather. cbv zeta.
  unfold serve, Build.HandlerCep. rewrite Hvalid.
  unfold bind at 1.
  cbn [Start initial mkState spans sent w panicked app].
  unfold bind at 1.
  match goal with |- context [CepAwesomeapi env cep ?st] =>
    destruct (@CepAwesomeapi_run env cep st eq_refl)
      as (calls & -> & _ & Hsent)
  end.
  cbn [mkState spans sent w panicked app].
  rewrite (Hsent _ Hcep), Hcep. clear Hsent calls.
  unfold bind at 1.
  match goal with |- context [WeatherApi env ?la ?lo ?st] =>
    destruct (@WeatherApi_run env la lo st eq_refl)
      as (calls & -> & _ & Hsent)
  end.
  cbn [mkState spans sent w panicked app].
  rewrite Hweather. reflexivity.
Qed.

(** C9, as the code has it: in the scenario of the city "Vitória" with a
    reading of 28.5 degrees Celsius the handler answers 200 with
    [temp_C = 28.5] and [temp_K = 301.65] on every build, and with a
    [temp_F] that depends on how the build compiles [tempC*1.8 + 32]:
    83.30000000000001 (0x1.4d33333333334p+6, one unit in the last place
    above 83.3) where the product is rounded to 51.300000000000004 before
    32 is added, and 83.3 (0x1.4d33333333333p+6) where the multiplication
    and the addition are fused and rounded once. *)
Theorem vitoria_scenario (b : Build.MulAdd) (cep : string)
    (cepResponse : CepAwesomeapiResponse)
    (weatherResponse : WeatherApiResponse) :
  eight_ascii_digits cep ->
  outcome (CepAwesomeapi env cep) = Ok cepResponse ->
  City cepResponse = "Vitória" ->
  outcome (WeatherApi env (Latitude cepResponse) (Longitude cepResponse))
    = Ok weatherResponse ->
  Temperature2M (Current weatherResponse) = 28.5 ->
  w (serve (Build.HandlerCep b env cep))
  = mkWriter (Some 200%Z)
      [EncTemperature
         {| TCity := "Vitória"; TempC := 28.5;
            TempF := match b with
                     | Build.Separate => 83.30000000000001
                     | Build.Fused => 83.3
                     end;
            TempK := 301.65 |}].
Proof.
  intros Hcep Hdir Hcity Hweather Hreading.
  pose proof (valid_cep_passes Hcep) as Hpass.
  rewrite (HandlerCep_on_build b cep Hpass Hdir Hweather).
  rewrite Hcity, Hreading.
  destruct b; reflexivity.
Qed.

End Handler.

(** ** ServiceA: the gateway *)

Section Gateway.
Import ServiceA.
Variable env : Env.

Lemma callServiceB_run (cep : string) (st : State Encoded) :
  panicked st = None ->
  exists calls : list Request,
    callServiceB env cep st =
    (outcome (callServiceB env cep),
     mkState (spans st ++ ["callServiceB"]) (sent st ++ calls) (w st))
    /\ (calls = [] \/ calls = [serviceBRequest env cep]).
Proof.
  intros Hp. destruct st as [sp se wr pa]. cbn in Hp. subst pa.
  unfold outcome, callServiceB, NewRequestWithContext, bind, Start, Do, ret,
    mkState, initial.
  fold (serviceBRequest env cep).
  destruct (url_Parse_error env _); simpl.
  - exists []. rewrite app_nil_r. auto.
  - exists [serviceBRequest env cep]. unfold serviceBRequest.
    destruct (network env _) as [err|code err|code body]; simpl;
      [now auto | now auto |].
    destruct (code =? StatusOK)%Z; simpl; [|now auto].
    destruct (Unmarshal_Temperature env body) as [t|err]; now auto.
Qed.

(** What [callServiceB] returns when ServiceB has answered. *)
Lemma callServiceB_responded (cep body : string) (code : Z) :
  url_Parse_error env (URL (serviceBRequest env cep)) = None ->
  network env (serviceBRequest env cep) = Responded code body ->
  outcome (callServiceB env cep) =
  if (code =? 200)%Z then
    match Unmarshal_Temperature env body with
    | Ok temperature => (Some temperature, 200%Z, None)
    | Err err => (None, 500%Z, Some (wrap "failed to parse response" err))
    end
  else
    (None, code,
     Some (if (Error (Unmarshal_errResp env body) =? "")%string then body
           else Error (Unmarshal_errResp env body))).
Proof.
  intros Hurl Hnet.
  unfold outcome, callServiceB, NewRequestWithContext, bind, Start, Do, ret.
  fold (serviceBRequest env cep). cbn [URL serviceBRequest] in Hurl.
  rewrite Hurl. cbn. fold (serviceBRequest env cep). rewrite Hnet. cbn.
  unfold StatusOK. destruct (code =? 200)%Z; cbn; [|reflexivity].
  destruct (Unmarshal_Temperature env body); reflexivity.
Qed.

(** A request that does not decode, or whose CEP does not match, is
    answered at once. *)
Lemma ValidateAndProcessCep_rejects (body : string) :
  (exists err, Decode_CepRequest env body = Err err) \/
  (exists data, Decode_CepRequest env body = Ok data /\
                MatchString validCepRegex (Cep data) = false) ->
  serve (ValidateAndProcessCep env body)
  = mkState ["ValidateAndProcessCep"] []
      (mkWriter (Some 422%Z) [EncMap [("error", "invalid zipcode")]]).
Proof.
  unfold serve, ValidateAndProcessCep.
  intros [[err ->]|[data [-> ->]]]; reflexivity.
Qed.

(** A request with a matching CEP is forwarded, and what [callServiceB]
    returns decides the response. *)
Lemma ValidateAndProcessCep_forwards (body : string) (data : CepRequest) :
  Decode_CepRequest env body = Ok data ->
  MatchString validCepRegex (Cep data) = true ->
  exists calls : list Request,
    serve (ValidateAndProcessCep env body)
    = (let '(temperature, statusCode, err) :=
         outcome (callServiceB env (Cep data)) in
       match err with
       | Some err =>
           if (100 <=? statusCode)%Z && (statusCode <=? 999)%Z then
             mkState ["ValidateAndProcessCep"; "callServiceB"] calls
               (mkWriter (Some statusCode) [EncMap [("error", err)]])
           else
             MkState ["ValidateAndProcessCep"; "callServiceB"] calls
               (mkWriter None [])
               (Some ("invalid WriteHeader code " ++ itoa statusCode))
       | None =>
           mkState ["ValidateAndProcessCep"; "callServiceB"] calls
             (mkWriter (Some 200%Z) [EncTemperature temperature])
       end)
    /\ (calls = [] \/ calls = [serviceBRequest env (Cep data)]).
Proof.
  intros Hbody Hmatch.
  unfold serve, ValidateAndProcessCep. rewrite Hbody, Hmatch.
  cbn [negb]. unfold bind at 1.
  cbn [Start initial mkState spans sent w panicked app].
  unfold bind at 1.
  match goal with |- context [callServiceB env ?c ?st] =>
    destruct (@callServiceB_run c st eq_refl) as (calls & -> & Hcalls)
  end.
  cbn [mkState spans sent w panicked app]. exists calls.
  split; [|assumption].
  destruct (outcome (callServiceB env (Cep data))) as [[t code] [err|]];
    [|reflexivity].
  unfold bind, WriteHeader, Encode. cbn [w status spans sent written panicked].
  destruct ((100 <=? code)%Z && (code <=? 999)%Z); reflexivity.
Qed.

(** C6: when ServiceB answers 200 and its body decodes as a temperature,
    the gateway answers 200 and the temperature it encodes is the one it
    received, every field as it was. *)
Theorem gateway_relays_temperature (body respBody : string)
    (data : CepRequest) (temperature : Temperature) :
  Decode_CepRequest env body = Ok data ->
  eight_ascii_digits (Cep data) ->
  url_Parse_error env (URL (serviceBRequest env (Cep data))) = None ->
  network env (serviceBRequest env (Cep data)) = Responded 200%Z respBody ->
  Unmarshal_Temperature env respBody = Ok temperature ->
  w (serve (ValidateAndProcessCep env body))
  = mkWriter (Some 200%Z) [EncTemperature (Some temperature)].
Proof.
  intros Hbody Hcep Hurl Hnet Hresp.
  apply MatchString_cepPattern in Hcep.
  destruct (ValidateAndProcessCep_forwards body Hbody Hcep)
    as (calls & -> & _).
  rewrite (callServiceB_responded _ Hurl Hnet), Hresp. reflexivity.
Qed.

(** C7, as the code has it: when ServiceB answers with a status from 201
    to 999, the gateway writes that status and hands to the encoder the
    error body whose message is the [error] member decoded from the body
    of ServiceB when it is not empty, and the body of ServiceB as it is
    otherwise.  (Below 100 and above 999 [WriteHeader] panics; from 100 to
    199 a status is informational for [net/http] and is left out.) *)
Theorem gateway_relays_error (body respBody : string) (data : CepRequest)
    (code : Z) :
  Decode_CepRequest env body = Ok data ->
  eight_ascii_digits (Cep data) ->
  url_Parse_error env (URL (serviceBRequest env (Cep data))) = None ->
  network env (serviceBRequest env (Cep data)) = Responded code respBody ->
  code <> 200%Z ->
  (200 <= code <= 999)%Z ->
  let message :=
    if (Error (Unmarshal_errResp env respBody) =? "")%string then respBody
    else Error (Unmarshal_errResp env respBody) in
  w (serve (ValidateAndProcessCep env body))
  = mkWriter (Some code) [EncMap [("error", message)]].
Proof.
  intros Hbody Hcep Hurl Hnet Hcode [Hlo Hhi]. cbv zeta.
  apply MatchString_cepPattern in Hcep.
  destruct (ValidateAndProcessCep_forwards body Hbody Hcep)
    as (calls & -> & _).
  rewrite (callServiceB_responded _ Hurl Hnet).
  apply Z.eqb_neq in Hcode. rewrite Hcode.
  assert (Hlo' : (100 <=? code)%Z = true) by (apply Z.leb_le; lia).
  apply Z.leb_le in Hhi. rewrite Hlo', Hhi. reflexivity.
Qed.

End Gateway.

(** ** Both stages *)

Section System.
Variable envA : ServiceA.Env.
Variable envB : ServiceB.Env.

(** C2: the pattern of both services accepts a string exactly when it
    consists of 8 ASCII digits.  With such a CEP the gateway goes on to
    [callServiceB] and ServiceB goes on to [CepAwesomeapi]; with any other
    string each of them answers 422 with the error "invalid zipcode",
    having started no other span and sent no request. *)
Theorem cep_validation (cep body : string) :
  ServiceA.Decode_CepRequest envA body = Ok (ServiceA.mkCepRequest cep) ->
  (MatchString ServiceA.validCepRegex cep = true <-> eight_ascii_digits cep)
  /\ (MatchString ServiceB.validCepRegex cep = true <-> eight_ascii_digits cep)
  /\ (eight_ascii_digits cep ->
      In "callServiceB"
        (spans (serve (ServiceA.ValidateAndProcessCep envA body)))
      /\ In "CepAwesomeapi" (spans (serve (ServiceB.HandlerCep envB cep))))
  /\ (~ eight_ascii_digits cep ->
      serve (ServiceA.ValidateAndProcessCep envA body)
      = mkState ["ValidateAndProcessCep"] []
          (mkWriter (Some 422%Z)
             [ServiceA.EncMap [("error", "invalid zipcode")]])
      /\ serve (ServiceB.HandlerCep envB cep)
        = mkState ["HandlerCep"] []
            (mkWriter (Some 422%Z)
               [ServiceB.EncMap [("error", "invalid zipcode")]])).
Proof.
  intros Hbody.
  split; [apply MatchString_cepPattern|].
  split; [apply MatchString_cepPattern|].
  split.
  - intros Hcep. split.
    + apply MatchString_cepPattern in Hcep.
      destruct (ValidateAndProcessCep_forwards envA body Hbody Hcep)
        as (calls & -> & _).
      destruct (outcome _) as [[t code] [err|]]; [|cbn; auto].
      destruct ((100 <=? code)%Z && (code <=? 999)%Z); cbn; auto.
    + pose proof (valid_cep_passes Hcep) as Hpass.
      destruct (HandlerCep_path envB cep); cbn; auto; congruence.
  - intros Hcep. split.
    + apply ValidateAndProcessCep_rejects. right.
      exists (ServiceA.mkCepRequest cep). split; [assumption|].
      now apply MatchString_cepPattern_false.
    + pose proof (invalid_cep_fails Hcep) as Hfail.
      destruct (HandlerCep_path envB cep); [reflexivity | congruence ..].
Qed.

(** X15:
    What the client of the gateway receives is what ServiceB wrote: when
    the round trip of the gateway carries the status and the value that the
    handler of ServiceB wrote for the CEP, the gateway writes that status
    and that value. *)
Lemma end_to_end (cep body respBody : string) (code : Z)
    (v : ServiceB.Encoded) :
  ServiceA.Decode_CepRequest envA body = Ok (ServiceA.mkCepRequest cep) ->
  ServiceA.url_Parse_error envA (URL (serviceBRequest envA cep)) = None ->
  w (serve (ServiceB.HandlerCep envB cep)) = mkWriter (Some code) [v] ->
  ServiceA.network envA (serviceBRequest envA cep) = Responded code respBody ->
  gatewayReads envA respBody v ->
  w (serve (ServiceA.ValidateAndProcessCep envA body))
  = mkWriter (Some code) [relay v].
Proof.
  intros Hbody Hurl HB Hnet Hreads.
  destruct (MatchString ServiceA.validCepRegex cep) eqn:Hmatch.
  - destruct (ValidateAndProcessCep_forwards envA body Hbody Hmatch)
      as (calls & -> & _).
    cbn [w ServiceA.Cep].
    rewrite (callServiceB_responded envA cep Hurl Hnet).
    apply MatchString_cepPattern in Hmatch.
    pose proof (valid_cep_passes Hmatch) as Hpass.
    destruct (HandlerCep_path envB cep); try congruence;
      cbn [w PathB.writer] in HB; injection HB as <- <-;
      cbn in Hreads |- *.
    + injection Hreads as <-. reflexivity.
    + injection Hreads as <-. reflexivity.
    + rewrite Hreads. reflexivity.
  - rewrite (ValidateAndProcessCep_rejects envA body).
    + apply MatchString_cepPattern_false in Hmatch.
      pose proof (invalid_cep_fails Hmatch) as Hfail.
      destruct (HandlerCep_path envB cep); try congruence.
      cbn [w PathB.writer] in HB. injection HB as <- <-. reflexivity.
    + right. exists (ServiceA.mkCepRequest cep). auto.
Qed.

End System.

(** ** Runs on the canned environments *)

Section Runs.
Import Fixture.

Lemma cep_29902555 : eight_ascii_digits "29902555".
Proof. apply MatchString_cepPattern. reflexivity. Qed.

Lemma cep_01001000 : eight_ascii_digits "01001000".
Proof. apply MatchString_cepPattern. reflexivity. Qed.

Lemma cep_99999999 : eight_ascii_digits "99999999".
Proof. apply MatchString_cepPattern. reflexivity. Qed.

Lemma cep_00000000 : eight_ascii_digits "00000000".
Proof. apply MatchString_cepPattern. reflexivity. Qed.

Lemma cep_55555555 : eight_ascii_digits "55555555".
Proof. apply MatchString_cepPattern. reflexivity. Qed.

Lemma cep_123 : ~ eight_ascii_digits "123".
Proof. apply MatchString_cepPattern_false. reflexivity. Qed.


Lemma cep_validation_witness :
  (eight_ascii_digits "29902555"
   /\ In "callServiceB"
        (spans (serve (ServiceA.ValidateAndProcessCep A.env
                         (A.request "29902555"))))
   /\ In "CepAwesomeapi"
        (spans (serve (ServiceB.HandlerCep B.env "29902555"))))
  /\ (~ eight_ascii_digits "123"
      /\ serve (ServiceA.ValidateAndProcessCep A.env (A.request "123"))
         = mkState ["ValidateAndProcessCep"] []
             (mkWriter (Some 422%Z)
                [ServiceA.EncMap [("error", "invalid zipcode")]])
      /\ serve (ServiceB.HandlerCep B.env "123")
         = mkState ["HandlerCep"] []
             (mkWriter (Some 422%Z)
                [ServiceB.EncMap [("error", "invalid zipcode")]])).
Proof.
  split.
  - split; [exact cep_29902555|].
    exact (proj1 (proj2 (proj2
             (@cep_validation A.env B.env "29902555" (A.request "29902555")
                eq_refl))) cep_29902555).
  - split; [exact cep_123|].
    exact (proj2 (proj2 (proj2
             (@cep_validation A.env B.env "123" (A.request "123") eq_refl)))
             cep_123).
Defined.

Lemma directory_failure_is_not_found_witness :
  eight_ascii_digits "00000000"
  /\ outcome (ServiceB.CepAwesomeapi B.env "00000000") = Err "cep not found"
  /\ w (serve (ServiceB.HandlerCep B.env "00000000"))
     = mkWriter (Some 404%Z)
         [ServiceB.EncMap [("error", "can not find zipcode")]]
  /\ ~ In "WeatherApi" (spans (serve (ServiceB.HandlerCep B.env "00000000"))).
Proof.
  split; [exact cep_00000000|]. split; [reflexivity|].
  destruct (@directory_failure_is_not_found B.env "00000000"
              "cep not found" cep_00000000 eq_refl) as (Hw & Hspan & _).
  split; assumption.
Defined.

Lemma weather_failure_is_not_found_witness :
  eight_ascii_digits "01001000"
  /\ outcome (ServiceB.CepAwesomeapi B.env "01001000") = Ok B.se
  /\ outcome (ServiceB.WeatherApi B.env "-23.55" "-46.63")
     = Err "weather api returned 500"
  /\ w (serve (ServiceB.HandlerCep B.env "01001000"))
     = mkWriter (Some 404%Z)
         [ServiceB.EncMap [("error", "can not find zipcode")]].
Proof.
  split; [exact cep_01001000|]. split; [reflexivity|]. split; [reflexivity|].
  exact (@weather_failure_is_not_found B.env "01001000" B.se
           "weather api returned 500" cep_01001000 eq_refl eq_refl).
Defined.

Lemma empty_cep_echo_is_not_found_witness :
  ServiceB.network B.env (directoryRequest "99999999")
  = Responded 200%Z B.unknownBody
  /\ ServiceB.Unmarshal_CepAwesomeapiResponse B.env B.unknownBody
     = Ok B.unknown
  /\ ServiceB.Cep B.unknown = ""
  /\ outcome (ServiceB.CepAwesomeapi B.env "99999999") = Err "cep not found"
  /\ w (serve (ServiceB.HandlerCep B.env "99999999"))
     = mkWriter (Some 404%Z)
         [ServiceB.EncMap [("error", "can not find zipcode")]].
Proof.
  split; [reflexivity|]. split; [reflexivity|]. split; [reflexivity|].
  destruct (@empty_cep_echo_is_not_found B.env "99999999" B.unknownBody
              B.unknown eq_refl eq_refl eq_refl eq_refl) as [Hout Hserve].
  split; [exact Hout | exact (Hserve cep_99999999)].
Defined.



Lemma vitoria_scenario_witness :
  eight_ascii_digits "29902555"
  /\ outcome (ServiceB.CepAwesomeapi B.env "29902555") = Ok B.vitoria
  /\ outcome (ServiceB.WeatherApi B.env "-20.31" "-40.33")
     = Ok (B.reading 28.5)
  /\ w (serve (Build.HandlerCep Build.Separate B.env "29902555"))
     = mkWriter (Some 200%Z)
         [ServiceB.EncTemperature
            {| ServiceB.TCity := "Vitória"; ServiceB.TempC := 28.5;
               ServiceB.TempF := 83.30000000000001;
               ServiceB.TempK := 301.65 |}]
  /\ w (serve (Build.HandlerCep Build.Fused B.env "29902555"))
     = mkWriter (Some 200%Z)
         [ServiceB.EncTemperature
            {| ServiceB.TCity := "Vitória"; ServiceB.TempC := 28.5;
               ServiceB.TempF := 83.3; ServiceB.TempK := 301.65 |}].
Proof.
  split; [exact cep_29902555|]. split; [reflexivity|]. split; [reflexivity|].
  split.
  - exact (@vitoria_scenario B.env Build.Separate "29902555" B.vitoria
             (B.reading 28.5) cep_29902555 eq_refl eq_refl eq_refl eq_refl).
  - exact (@vitoria_scenario B.env Build.Fused "29902555" B.vitoria
             (B.reading 28.5) cep_29902555 eq_refl eq_refl eq_refl eq_refl).
Defined.

(** The scenario with [temp_F = 83.3]: the directory answers "Vitória",
    the weather API answers 28.5, and the handler of the build that rounds
    the product before it adds does not write [temp_F = 83.3]. *)
Lemma vitoria_scenario_temp_F_is_not_83_3 :
  eight_ascii_digits "29902555"
  /\ outcome (ServiceB.CepAwesomeapi B.env "29902555") = Ok B.vitoria
  /\ ServiceB.City B.vitoria = "Vitória"
  /\ ServiceB.Latitude B.vitoria = "-20.31"
  /\ ServiceB.Longitude B.vitoria = "-40.33"
  /\ outcome (ServiceB.WeatherApi B.env "-20.31" "-40.33")
     = Ok (B.reading 28.5)
  /\ ServiceB.Temperature2M (ServiceB.Current (B.reading 28.5)) = 28.5
  /\ w (serve (ServiceB.HandlerCep B.env "29902555"))
     <> mkWriter (Some 200%Z)
          [ServiceB.EncTemperature
             {| ServiceB.TCity := "Vitória"; ServiceB.TempC := 28.5;
                ServiceB.TempF := 83.3; ServiceB.TempK := 301.65 |}].
Proof.
  split; [exact cep_29902555|]. do 6 (split; [reflexivity|]).
  intros H.
  apply (f_equal (fun rw =>
           match written rw with
           | [ServiceB.EncTemperature t] =>
               PrimFloat.eqb (ServiceB.TempF t) 83.3
           | _ => false
           end)) in H.
  vm_compute in H. discriminate H.
Qed.

Lemma gateway_relays_temperature_witness :
  ServiceA.Decode_CepRequest A.env (A.request "29902555")
  = Ok (ServiceA.mkCepRequest "29902555")
  /\ ServiceA.network A.env (serviceBRequest A.env "29902555")
     = Responded 200%Z A.temperatureBody
  /\ ServiceA.Unmarshal_Temperature A.env A.temperatureBody = Ok A.vitoria
  /\ w (serve (ServiceA.ValidateAndProcessCep A.env (A.request "29902555")))
     = mkWriter (Some 200%Z) [ServiceA.EncTemperature (Some A.vitoria)].
Proof.
  split; [reflexivity|]. split; [reflexivity|]. split; [reflexivity|].
  exact (@gateway_relays_temperature A.env (A.request "29902555")
           A.temperatureBody (ServiceA.mkCepRequest "29902555") A.vitoria
           eq_refl cep_29902555 eq_refl eq_refl eq_refl).
Defined.

Lemma gateway_relays_error_witness :
  (ServiceA.network A.env (serviceBRequest A.env "00000000")
   = Responded 404%Z A.notFoundBody
   /\ w (serve (ServiceA.ValidateAndProcessCep A.env (A.request "00000000")))
      = mkWriter (Some 404%Z)
          [ServiceA.EncMap [("error", "can not find zipcode")]])
  /\ (ServiceA.network A.env (serviceBRequest A.env "55555555")
      = Responded 503%Z "upstream down"
      /\ w (serve (ServiceA.ValidateAndProcessCep A.env
                     (A.request "55555555")))
         = mkWriter (Some 503%Z)
             [ServiceA.EncMap [("error", "upstream down")]]).
Proof.
  split; (split; [reflexivity|]).
  - apply (@gateway_relays_error A.env (A.request "00000000") A.notFoundBody
             (ServiceA.mkCepRequest "00000000") 404%Z eq_refl cep_00000000
             eq_refl eq_refl); [discriminate | lia].
  - apply (@gateway_relays_error A.env (A.request "55555555") "upstream down"
             (ServiceA.mkCepRequest "55555555") 503%Z eq_refl cep_55555555
             eq_refl eq_refl); [discriminate | lia].
Defined.

(** ServiceB answers with the status 099: [WriteHeader] panics, and the
    gateway relays no status and encodes nothing. *)
Lemma gateway_does_not_relay_099 :
  ServiceA.Decode_CepRequest Oddities.status099 (A.request "00000000")
  = Ok (ServiceA.mkCepRequest "00000000")
  /\ eight_ascii_digits "00000000"
  /\ ServiceA.url_Parse_error Oddities.status099
       (URL (serviceBRequest Oddities.status099 "00000000")) = None
  /\ ServiceA.network Oddities.status099
       (serviceBRequest Oddities.status099 "00000000")
     = Responded 99%Z A.notFoundBody
  /\ 99%Z <> 200%Z
  /\ ServiceA.Error (ServiceA.Unmarshal_errResp Oddities.status099
                       A.notFoundBody) = "can not find zipcode"
  /\ serve (ServiceA.ValidateAndProcessCep Oddities.status099
              (A.request "00000000"))
     = MkState ["ValidateAndProcessCep"; "callServiceB"]
         [serviceBRequest Oddities.status099 "00000000"]
         (mkWriter None []) (Some "invalid WriteHeader code 99")
  /\ w (serve (ServiceA.ValidateAndProcessCep Oddities.status099
                 (A.request "00000000")))
     <> mkWriter (Some 99%Z)
          [ServiceA.EncMap [("error", "can not find zipcode")]].
Proof.
  split; [reflexivity|]. split; [exact cep_00000000|].
  do 2 (split; [reflexivity|]). split; [discriminate|].
  do 2 (split; [reflexivity|]). discriminate.
Qed.

End Runs.

(** * Further properties *)

(** ** ServiceB: what decides the answer *)

Section Resolution.
Import ServiceB.
Variable env : Env.

Lemma passes_is_valid (cep : string) :
  (cep =? "")%string || negb (MatchString validCepRegex cep) = false ->
  eight_ascii_digits cep.
Proof.
  intros H. apply orb_false_elim in H. destruct H as [_ H].
  apply negb_false_iff in H. now apply MatchString_cepPattern.
Qed.

Lemma fails_is_invalid (cep : string) :
  (cep =? "")%string || negb (MatchString validCepRegex cep) = true ->
  ~ eight_ascii_digits cep.
Proof.
  intros H Hcep. rewrite (valid_cep_passes Hcep) in H. discriminate.
Qed.

(** X1:
    The handler answers 422 exactly when the CEP is not made of 8 ASCII
    digits: no answer of an adapter ever leads to 422. *)
Theorem HandlerCep_422_iff (cep : string) :
  status (w (serve (HandlerCep env cep))) = Some 422%Z
  <-> ~ eight_ascii_digits cep.
Proof.
  destruct (HandlerCep_path env cep) as [Hv|e calls Hv _ _|r e calls Hv _ _ _
                                        |r wr Hv _ _]; cbn.
  - split; [intros _; exact (@fails_is_invalid cep Hv) | reflexivity].
  - split; [discriminate | intros H; destruct (H (@passes_is_valid cep Hv))].
  - split; [discriminate | intros H; destruct (H (@passes_is_valid cep Hv))].
  - split; [discriminate | intros H; destruct (H (@passes_is_valid cep Hv))].
Qed.

(** X2:
    For a valid CEP the handler answers 200 exactly when both adapters
    return a result, and 404 exactly when one of them returns an error. *)
Theorem HandlerCep_status_of_valid_cep (cep : string) :
  eight_ascii_digits cep ->
  (status (w (serve (HandlerCep env cep))) = Some 200%Z <->
   exists cepResponse weatherResponse,
     outcome (CepAwesomeapi env cep) = Ok cepResponse /\
     outcome (WeatherApi env (Latitude cepResponse) (Longitude cepResponse))
     = Ok weatherResponse)
  /\ (status (w (serve (HandlerCep env cep))) = Some 404%Z <->
      (exists err, outcome (CepAwesomeapi env cep) = Err err) \/
      (exists cepResponse err,
          outcome (CepAwesomeapi env cep) = Ok cepResponse /\
          outcome (WeatherApi env (Latitude cepResponse)
                     (Longitude cepResponse)) = Err err)).
Proof.
  intros Hcep. pose proof (valid_cep_passes Hcep) as Hpass.
  destruct (HandlerCep_path env cep) as [Hv|e calls Hv Hd _|r e calls Hv Hd Hw _
                                        |r wr Hv Hd Hw]; cbn; [congruence|..].
  - split; split; try discriminate; eauto.
    intros (r & wr & Hr & _). congruence.
  - split; split; try discriminate; eauto.
    intros (r' & wr & Hr & Hwr). congruence.
  - split; split; try discriminate; eauto.
    intros [[err Herr]|(r' & err & Hr & Herr)]; congruence.
Qed.

(** X3:
    Requests leave in order: the directory is asked first, and the
    weather API is asked only after the directory has answered with a
    result, for the latitude and longitude strings of that result as they
    are. *)
Theorem HandlerCep_requests_in_order (cep : string) :
  let requests := sent (serve (HandlerCep env cep)) in
  requests = []
  \/ requests = [directoryRequest cep]
  \/ exists cepResponse,
       outcome (CepAwesomeapi env cep) = Ok cepResponse /\
       requests = [directoryRequest cep;
                   forecastRequest (Latitude cepResponse)
                     (Longitude cepResponse)].
Proof.
  cbv zeta.
  destruct (HandlerCep_path env cep)
    as [Hv|e calls Hv Hd Hc|r e calls Hv Hd Hw Hc|r wr Hv Hd Hw]; cbn [sent].
  - now left.
  - destruct Hc as [->| ->]; auto.
  - destruct Hc as [->| ->]; [auto|]. right. right. eauto.
  - right. right. eauto.
Qed.

(** X4:
    The weather adapter is entered exactly when the CEP is valid and the
    directory adapter has returned a result. *)
Theorem HandlerCep_weather_span_iff (cep : string) :
  In "WeatherApi" (spans (serve (HandlerCep env cep))) <->
  eight_ascii_digits cep /\
  exists cepResponse, outcome (CepAwesomeapi env cep) = Ok cepResponse.
Proof.
  destruct (HandlerCep_path env cep) as [Hv|e calls Hv Hd _|r e calls Hv Hd _ _
                                        |r wr Hv Hd _]; cbn [spans].
  - split.
    + cbn. intros [H|[]]. discriminate.
    + intros [Hcep _]. destruct (@fails_is_invalid cep Hv Hcep).
  - split.
    + cbn. intros [H|[H|[]]]; discriminate.
    + intros [_ [r Hr]]. congruence.
  - split; [|cbn; auto]. intros _.
    split; [exact (@passes_is_valid cep Hv) | eauto].
  - split; [|cbn; auto]. intros _.
    split; [exact (@passes_is_valid cep Hv) | eauto].
Qed.

(** X5:
    The directory adapter returns a result exactly when the request could
    be made, the directory answered 200 and the body decodes to a record
    with a [cep]; the result is that record. *)
Theorem CepAwesomeapi_success_iff (cep : string)
    (cepResponse : CepAwesomeapiResponse) :
  outcome (CepAwesomeapi env cep) = Ok cepResponse <->
  url_Parse_error env (URL (directoryRequest cep)) = None /\
  exists body,
    network env (directoryRequest cep) = Responded 200%Z body /\
    Unmarshal_CepAwesomeapiResponse env body = Ok cepResponse /\
    Cep cepResponse <> "".
Proof.
  rewrite CepAwesomeapi_outcome.
  destruct (url_Parse_error env _) as [e|];
    [split; [discriminate | intros [? _]; discriminate]|].
  destruct (network env _) as [e|code e|code body];
    [split; [discriminate | intros (_ & ? & ? & _); discriminate] ..|].
  destruct (Z.eqb_spec code 404) as [H404|H404].
  { split; [discriminate|]. intros (_ & b & Heq & _).
    injection Heq as -> _. discriminate. }
  destruct (Z.eqb_spec code 200) as [H200|H200]; cbn [negb].
  - subst code.
    destruct (Unmarshal_CepAwesomeapiResponse env body) as [r|e] eqn:Hbody.
    + destruct (String.eqb_spec (Cep r) "") as [Hempty|Hempty].
      * split; [discriminate|]. intros (_ & b & Heq & Hb & Hcep).
        injection Heq as <-. congruence.
      * split.
        -- intros H. injection H as <-. split; [reflexivity|].
           exists body. auto.
        -- intros (_ & b & Heq & Hb & _). injection Heq as <-. congruence.
    + split; [discriminate|]. intros (_ & b & Heq & Hb & _).
      injection Heq as <-. congruence.
  - split; [discriminate|]. intros (_ & b & Heq & _).
    injection Heq as -> _. congruence.
Qed.

(** X6:
    The weather adapter returns a result exactly when both coordinates
    parse, the request could be made, the weather API answered 200 and the
    body decodes; the result is the decoded body. *)
Theorem WeatherApi_success_iff (latitude longitude : string)
    (weatherResponse : WeatherApiResponse) :
  outcome (WeatherApi env latitude longitude) = Ok weatherResponse <->
  (exists f, ParseFloat env latitude = Ok f) /\
  (exists f, ParseFloat env longitude = Ok f) /\
  url_Parse_error env (URL (forecastRequest latitude longitude)) = None /\
  exists body,
    network env (forecastRequest latitude longitude) = Responded 200%Z body /\
    Unmarshal_WeatherApiResponse env body = Ok weatherResponse.
Proof.
  rewrite WeatherApi_outcome.
  destruct (ParseFloat env latitude) as [f|e];
    [|split; [discriminate | intros [[? ?] _]; discriminate]].
  destruct (ParseFloat env longitude) as [g|e];
    [|split; [discriminate | intros (_ & [? ?] & _); discriminate]].
  destruct (url_Parse_error env _) as [e|];
    [split; [discriminate | intros (_ & _ & ? & _); discriminate]|].
  destruct (network env _) as [e|code e|code body];
    [split; [discriminate | intros (_ & _ & _ & ? & ? & _); discriminate] ..|].
  destruct (Z.eqb_spec code 200) as [H200|H200]; cbn [negb].
  - subst code. split.
    + intros H. repeat split; eauto.
    + intros (_ & _ & _ & b & Heq & Hb). injection Heq as <-. exact Hb.
  - split; [discriminate|]. intros (_ & _ & _ & b & Heq & _).
    injection Heq as -> _. congruence.
Qed.

(** X7:
    The status of the directory is looked at before its body: with a
    status other than 200 the adapter returns an error, "cep not found" for
    404 and "cep api returned <status>" otherwise, whatever the body holds,
    and the handler answers 404 for a valid CEP. *)
Theorem CepAwesomeapi_status_before_body (cep body : string) (code : Z) :
  url_Parse_error env (URL (directoryRequest cep)) = None ->
  network env (directoryRequest cep) = Responded code body ->
  code <> 200%Z ->
  outcome (CepAwesomeapi env cep)
  = Err (if (code =? 404)%Z then "cep not found"
         else "cep api returned " ++ itoa code)
  /\ (eight_ascii_digits cep ->
      w (serve (HandlerCep env cep))
      = mkWriter (Some 404%Z) [EncMap [("error", "can not find zipcode")]]).
Proof.
  intros Hurl Hnet Hcode.
  assert (Hout : outcome (CepAwesomeapi env cep)
                 = Err (if (code =? 404)%Z then "cep not found"
                        else "cep api returned " ++ itoa code)).
  { rewrite CepAwesomeapi_outcome, Hurl, Hnet.
    destruct (code =? 404)%Z; [reflexivity|].
    apply Z.eqb_neq in Hcode. now rewrite Hcode. }
  split; [exact Hout|].
  intros Hcep.
  destruct (directory_failure_state env Hcep Hout) as (calls & -> & _).
  reflexivity.
Qed.

End Resolution.

(** ** ServiceA: every run of the gateway *)

Section Relay.
Import ServiceA.
Variable env : Env.

(** The state in which [ValidateAndProcessCep] leaves a request, read off
    the answers of the environment. *)
Lemma ValidateAndProcessCep_state (body : string) :
  serve (ValidateAndProcessCep env body) =
  match Decode_CepRequest env body with
  | Err _ =>
      mkState ["ValidateAndProcessCep"] []
        (mkWriter (Some 422%Z) [EncMap [("error", "invalid zipcode")]])
  | Ok data =>
      if MatchString validCepRegex (Cep data) then
        let req := serviceBRequest env (Cep data) in
        let entered := ["ValidateAndProcessCep"; "callServiceB"] in
        match url_Parse_error env (URL req) with
        | Some err =>
            mkState entered []
              (mkWriter (Some 500%Z)
                 [EncMap [("error", wrap "failed to create request" err)]])
        | None =>
            match network env req with
            | DoFailed err =>
                mkState entered [req]
                  (mkWriter (Some 500%Z)
                     [EncMap [("error", wrap "failed to call ServiceB" err)]])
            | ReadFailed _ err =>
                mkState entered [req]
                  (mkWriter (Some 500%Z)
                     [EncMap
                        [("error", wrap "failed to read response body" err)]])
            | Responded code respBody =>
                if (code =? 200)%Z then
                  mkState entered [req]
                    match Unmarshal_Temperature env respBody with
                    | Ok temperature =>
                        mkWriter (Some 200%Z)
                          [EncTemperature (Some temperature)]
                    | Err err =>
                        mkWriter (Some 500%Z)
                          [EncMap
                             [("error", wrap "failed to parse response" err)]]
                    end
                else if (100 <=? code)%Z && (code <=? 999)%Z then
                  mkState entered [req]
                    (mkWriter (Some code)
                       [EncMap
                          [("error",
                            if (Error (Unmarshal_errResp env respBody)
                                =? "")%string
                            then respBody
                            else Error (Unmarshal_errResp env respBody))]])
                else
                  MkState entered [req] (mkWriter None [])
                    (Some ("invalid WriteHeader code " ++ itoa code))
            end
        end
      else
        mkState ["ValidateAndProcessCep"] []
          (mkWriter (Some 422%Z) [EncMap [("error", "invalid zipcode")]])
  end.
Proof.
  unfold serve, ValidateAndProcessCep, callServiceB, NewRequestWithContext,
    serviceBRequest, bind, Start, Do, WriteHeader, Encode, ret, initial,
    mkState, StatusOK.
  cbn [URL].
  destruct (Decode_CepRequest env body) as [data|err]; [|reflexivity].
  destruct (MatchString validCepRegex (Cep data)); [|reflexivity].
  cbn [negb].
  destruct (url_Parse_error env _); [reflexivity|].
  cbn [spans sent w panicked app snd fst].
  destruct (network env _) as [err|code err|code respBody]; try reflexivity.
  destruct (code =? 200)%Z; cbn [negb].
  - destruct (Unmarshal_Temperature env respBody); reflexivity.
  - cbn [spans sent w panicked status written app snd fst].
    destruct ((100 <=? code)%Z && (code <=? 999)%Z); reflexivity.
Qed.

(** X8:
    A request body that does not decode is answered 422 "invalid zipcode"
    at once: [callServiceB] is not entered and nothing is sent. *)
Theorem gateway_rejects_undecodable_body (body : string) (err : error) :
  Decode_CepRequest env body = Err err ->
  serve (ValidateAndProcessCep env body)
  = mkState ["ValidateAndProcessCep"] []
      (mkWriter (Some 422%Z) [EncMap [("error", "invalid zipcode")]]).
Proof.
  intros Hbody. rewrite ValidateAndProcessCep_state, Hbody. reflexivity.
Qed.

(** X9:
    The gateway answers 200 only when ServiceB has answered 200 with a
    body that decodes as a temperature, and always then. *)
Theorem gateway_200_iff (body : string) :
  status (w (serve (ValidateAndProcessCep env body))) = Some 200%Z <->
  exists data respBody temperature,
    Decode_CepRequest env body = Ok data /\
    eight_ascii_digits (Cep data) /\
    url_Parse_error env (URL (serviceBRequest env (Cep data))) = None /\
    network env (serviceBRequest env (Cep data)) = Responded 200%Z respBody /\
    Unmarshal_Temperature env respBody = Ok temperature.
Proof.
  rewrite ValidateAndProcessCep_state. split.
  - destruct (Decode_CepRequest env body) as [data|err]; [|discriminate].
    destruct (MatchString validCepRegex (Cep data)) eqn:Hmatch; [|discriminate].
    cbv zeta.
    destruct (url_Parse_error env _) eqn:Hurl; [discriminate|].
    destruct (network env _) as [err|code err|code respBody] eqn:Hnet;
      try discriminate.
    destruct (code =? 200)%Z eqn:Hcode.
    + apply Z.eqb_eq in Hcode. subst code.
      destruct (Unmarshal_Temperature env respBody) as [t|err] eqn:Hresp;
        [|discriminate].
      intros _. exists data, respBody, t.
      split; [reflexivity|].
      split; [now apply MatchString_cepPattern | auto].
    + apply Z.eqb_neq in Hcode.
      destruct ((100 <=? code)%Z && (code <=? 999)%Z); cbn;
        [|discriminate].
      intros H. injection H as H. contradiction.
  - intros (data & respBody & t & -> & Hcep & Hurl & Hnet & Hresp).
    apply MatchString_cepPattern in Hcep. unfold validCepRegex.
    rewrite Hcep. cbv zeta. rewrite Hurl, Hnet. cbn [Z.eqb Pos.eqb].
    rewrite Hresp. reflexivity.
Qed.

(** X10:
    When the URL of ServiceB does not parse, the gateway answers 500
    "failed to create request: <error>" and sends nothing. *)
Theorem gateway_request_not_created (body : string) (data : CepRequest)
    (err : error) :
  Decode_CepRequest env body = Ok data ->
  eight_ascii_digits (Cep data) ->
  url_Parse_error env (URL (serviceBRequest env (Cep data))) = Some err ->
  w (serve (ValidateAndProcessCep env body))
  = mkWriter (Some 500%Z)
      [EncMap [("error", "failed to create request: " ++ err)]]
  /\ sent (serve (ValidateAndProcessCep env body)) = [].
Proof.
  intros Hbody Hcep Hurl. apply MatchString_cepPattern in Hcep.
  rewrite ValidateAndProcessCep_state, Hbody. unfold validCepRegex.
  rewrite Hcep. cbv zeta. rewrite Hurl. split; reflexivity.
Qed.

(** X11:
    When the round trip to ServiceB fails, in the call or while the body
    is read, the gateway answers 500 with the error of the round trip
    behind "failed to call ServiceB: " or "failed to read response body: ";
    the status that came with a body that could not be read is not
    relayed. *)
Theorem gateway_no_answer_is_500 (body : string) (data : CepRequest)
    (rt : RoundTrip) :
  Decode_CepRequest env body = Ok data ->
  eight_ascii_digits (Cep data) ->
  url_Parse_error env (URL (serviceBRequest env (Cep data))) = None ->
  network env (serviceBRequest env (Cep data)) = rt ->
  (forall code respBody, rt <> Responded code respBody) ->
  w (serve (ValidateAndProcessCep env body))
  = mkWriter (Some 500%Z)
      [EncMap
         [("error",
           match rt with
           | DoFailed err => "failed to call ServiceB: " ++ err
           | ReadFailed _ err => "failed to read response body: " ++ err
           | Responded _ _ => ""
           end)]].
Proof.
  intros Hbody Hcep Hurl Hnet Hrt. apply MatchString_cepPattern in Hcep.
  rewrite ValidateAndProcessCep_state, Hbody. unfold validCepRegex.
  rewrite Hcep. cbv zeta. rewrite Hurl, Hnet.
  destruct rt as [err|code err|code respBody]; try reflexivity.
  destruct (Hrt code respBody eq_refl).
Qed.

(** X12:
    A 200 of ServiceB whose body does not decode as a temperature is not
    relayed: the gateway answers 500 "failed to parse response: <error>". *)
Theorem gateway_undecodable_answer_is_500 (body respBody : string)
    (data : CepRequest) (err : error) :
  Decode_CepRequest env body = Ok data ->
  eight_ascii_digits (Cep data) ->
  url_Parse_error env (URL (serviceBRequest env (Cep data))) = None ->
  network env (serviceBRequest env (Cep data)) = Responded 200%Z respBody ->
  Unmarshal_Temperature env respBody = Err err ->
  w (serve (ValidateAndProcessCep env body))
  = mkWriter (Some 500%Z)
      [EncMap [("error", "failed to parse response: " ++ err)]].
Proof.
  intros Hbody Hcep Hurl Hnet Hresp. apply MatchString_cepPattern in Hcep.
  rewrite ValidateAndProcessCep_state, Hbody. unfold validCepRegex.
  rewrite Hcep. cbv zeta. rewrite Hurl, Hnet. cbn [Z.eqb Pos.eqb].
  rewrite Hresp. reflexivity.
Qed.

(** X13:
    For a valid CEP whose URL parses the gateway sends exactly one
    request, a GET for [<base>/<cep>], where the base is the value of
    [SERVICE_B_URL], and [http://localhost:8090] when that is empty or not
    set. *)
Theorem gateway_request_target (body : string) (data : CepRequest) :
  Decode_CepRequest env body = Ok data ->
  eight_ascii_digits (Cep data) ->
  url_Parse_error env (URL (serviceBRequest env (Cep data))) = None ->
  exists url,
    sent (serve (ValidateAndProcessCep env body)) = [mkRequest "GET" url]
    /\ (Getenv env "SERVICE_B_URL" = "" ->
        url = "http://localhost:8090/" ++ Cep data)
    /\ (Getenv env "SERVICE_B_URL" <> "" ->
        url = Getenv env "SERVICE_B_URL" ++ "/" ++ Cep data).
Proof.
  intros Hbody Hcep Hurl. apply MatchString_cepPattern in Hcep.
  rewrite ValidateAndProcessCep_state, Hbody. unfold validCepRegex.
  rewrite Hcep. cbv zeta. rewrite Hurl.
  exists (URL (serviceBRequest env (Cep data))).
  split.
  { destruct (network env _) as [err|code err|code respBody];
      try reflexivity.
    destruct (code =? 200)%Z; [reflexivity|].
    destruct ((100 <=? code)%Z && (code <=? 999)%Z); reflexivity. }
  unfold serviceBRequest. cbn [URL].
  destruct (String.eqb_spec (Getenv env "SERVICE_B_URL") "") as [He|He].
  - split; [reflexivity | contradiction].
  - split; [contradiction | reflexivity].
Qed.

(** X14:
    Every run of the gateway sends at most one request and ends in one of
    two ways: it has written one status and encoded one value, which is
    never a nil temperature, or [w.WriteHeader] has panicked and nothing
    is written.  It panics exactly when ServiceB has answered with a
    status that is not one of 100..999. *)
Theorem gateway_writes_once (body : string) :
  let st := serve (ValidateAndProcessCep env body) in
  ((panicked st = None /\
    exists code v,
      w st = mkWriter (Some code) [v] /\ v <> EncTemperature None)
   \/ (panicked st <> None /\ w st = mkWriter None []))
  /\ (panicked st <> None <->
      exists data code respBody,
        Decode_CepRequest env body = Ok data /\
        eight_ascii_digits (Cep data) /\
        url_Parse_error env (URL (serviceBRequest env (Cep data))) = None /\
        network env (serviceBRequest env (Cep data))
        = Responded code respBody /\
        ~ (100 <= code <= 999)%Z)
  /\ (length (sent st) <= 1)%nat.
Proof.
  cbv zeta. rewrite ValidateAndProcessCep_state.
  assert (Hwritten : forall sp se code (v : Encoded),
             v <> EncTemperature None ->
             (panicked (mkState sp se (mkWriter (Some code) [v])) = None /\
              exists c v',
                w (mkState sp se (mkWriter (Some code) [v]))
                = mkWriter (Some c) [v'] /\ v' <> EncTemperature None)
             \/ (panicked (mkState sp se (mkWriter (Some code) [v])) <> None
                 /\ w (mkState sp se (mkWriter (Some code) [v]))
                    = mkWriter None [])).
  { intros sp se code v Hv. left. split; [reflexivity|].
    exists code, v. split; [reflexivity | exact Hv]. }
  destruct (Decode_CepRequest env body) as [data|err] eqn:Hbody.
  2: { split; [apply Hwritten; discriminate|].
       split; [|cbn; lia].
       split; [intros H; now destruct H|].
       intros (d & _ & _ & H & _). discriminate. }
  destruct (MatchString validCepRegex (Cep data)) eqn:Hmatch.
  2: { split; [apply Hwritten; discriminate|].
       split; [|cbn; lia].
       split; [intros H; now destruct H|].
       intros (d & c & b & H & Hcep & _). injection H as <-.
       apply MatchString_cepPattern in Hcep.
       unfold validCepRegex in Hmatch. congruence. }
  cbv zeta.
  destruct (url_Parse_error env _) as [err|] eqn:Hurl.
  { split; [apply Hwritten; discriminate|].
    split; [|cbn; lia].
    split; [intros H; now destruct H|].
    intros (d & c & b & H & _ & Hu & _). injection H as <-. congruence. }
  destruct (network env _) as [err|code err|code respBody] eqn:Hnet.
  - split; [apply Hwritten; discriminate|].
    split; [|cbn; lia].
    split; [intros H; now destruct H|].
    intros (d & c & b & H & _ & _ & Hn & _). injection H as <-. congruence.
  - split; [apply Hwritten; discriminate|].
    split; [|cbn; lia].
    split; [intros H; now destruct H|].
    intros (d & c & b & H & _ & _ & Hn & _). injection H as <-. congruence.
  - destruct (Z.eqb_spec code 200) as [->|Hcode].
    + split.
      * destruct (Unmarshal_Temperature env respBody);
          apply Hwritten; discriminate.
      * split; [|cbn; lia].
        split; [intros H; now destruct H|].
        intros (d & c & b & H & _ & _ & Hn & Hrange). injection H as <-.
        rewrite Hnet in Hn. injection Hn as <- _. lia.
    + destruct ((100 <=? code)%Z && (code <=? 999)%Z) eqn:Hrange.
      * apply andb_prop in Hrange. destruct Hrange as [Hlo Hhi].
        apply Z.leb_le in Hlo, Hhi.
        split; [apply Hwritten; discriminate|].
        split; [|cbn; lia].
        split; [intros H; now destruct H|].
        intros (d & c & b & H & _ & _ & Hn & Hout). injection H as <-.
        rewrite Hnet in Hn. injection Hn as <- _. lia.
      * split; [right; split; [discriminate | reflexivity]|].
        split; [|cbn; lia].
        split; [|discriminate].
        intros _. exists data, code, respBody.
        split; [reflexivity|].
        split; [now apply MatchString_cepPattern|].
        split; [exact Hurl|]. split; [exact Hnet|].
        intros [Hlo Hhi]. apply Z.leb_le in Hlo, Hhi.
        rewrite Hlo, Hhi in Hrange. discriminate.
Qed.

End Relay.

(** ** initProvider *)

Section Tracing.
Import Telemetry.
Variables Resource ClientConn Exporter : Type.
Variable env : Env Resource ClientConn Exporter.

(** X16:
    [initProvider] installs all or nothing.  It returns a provider exactly
    when the resource, the connection to [otel-collector:4317] and the
    exporter over that connection are all created; the provider samples
    always, carries that resource and batches to that exporter, and it and
    the trace-context propagator become the globals.  When it returns an
    error the globals are what they were. *)
Theorem initProvider_all_or_nothing (serviceName : string)
    (g : Globals Resource Exporter) :
  (forall tp,
      fst (initProvider env serviceName g) = Ok tp <->
      exists res conn traceExporter,
        resource_New env serviceName = Ok res /\
        grpc_NewClient env "otel-collector:4317" = Ok conn /\
        otlptracegrpc_New env conn = Ok traceExporter /\
        tp = mkTracerProvider AlwaysSample res
               (BatchSpanProcessor traceExporter))
  /\ (forall tp,
        fst (initProvider env serviceName g) = Ok tp ->
        snd (initProvider env serviceName g)
        = mkGlobals (Some tp) (Some TraceContext))
  /\ (forall err,
        fst (initProvider env serviceName g) = Err err ->
        snd (initProvider env serviceName g) = g).
Proof.
  unfold initProvider.
  destruct (resource_New env serviceName) as [res|e].
  2: { repeat split; try discriminate; try reflexivity.
       intros (? & ? & ? & H & _). discriminate. }
  destruct (grpc_NewClient env "otel-collector:4317") as [conn|e].
  2: { repeat split; try discriminate; try reflexivity.
       intros (? & ? & ? & _ & H & _). discriminate. }
  destruct (otlptracegrpc_New env conn) as [traceExporter|e] eqn:Hexp.
  2: { repeat split; try discriminate; try reflexivity.
       intros (? & c & ? & _ & Hc & H & _).
       injection Hc as <-. congruence. }
  cbn [fst snd]. repeat split; try discriminate.
  - intros H. injection H as <-. exists res, conn, traceExporter. auto.
  - intros (r & c & x & Hr & Hc & Hx & ->).
    injection Hr as <-. injection Hc as <-.
    rewrite Hexp in Hx. injection Hx as <-. reflexivity.
  - intros tp H. injection H as <-. reflexivity.
Qed.

End Tracing.

(** ** Runs on the canned environments, continued *)

Section MoreRuns.
Import Fixture.

Lemma HandlerCep_status_of_valid_cep_witness :
  eight_ascii_digits "29902555"
  /\ status (w (serve (ServiceB.HandlerCep B.env "29902555"))) = Some 200%Z.
Proof.
  split; [exact cep_29902555|].
  apply (proj1 (@HandlerCep_status_of_valid_cep B.env "29902555"
                  cep_29902555)).
  exists B.vitoria, (B.reading 28.5). split; reflexivity.
Defined.

Lemma CepAwesomeapi_status_before_body_witness :
  ServiceB.network Outage.directoryDown (directoryRequest "29902555")
  = Responded 503%Z B.vitoriaBody
  /\ ServiceB.Unmarshal_CepAwesomeapiResponse Outage.directoryDown
       B.vitoriaBody = Ok B.vitoria
  /\ outcome (ServiceB.CepAwesomeapi Outage.directoryDown "29902555")
     = Err "cep api returned 503"
  /\ w (serve (ServiceB.HandlerCep Outage.directoryDown "29902555"))
     = mkWriter (Some 404%Z)
         [ServiceB.EncMap [("error", "can not find zipcode")]].
Proof.
  split; [reflexivity|]. split; [reflexivity|].
  destruct (@CepAwesomeapi_status_before_body Outage.directoryDown
              "29902555" B.vitoriaBody 503%Z eq_refl eq_refl)
    as [Hout Hserve]; [discriminate|].
  split; [exact Hout | exact (Hserve cep_29902555)].
Defined.

Lemma gateway_rejects_undecodable_body_witness :
  ServiceA.Decode_CepRequest A.env "cep=29902555"
  = Err "unexpected end of JSON input"
  /\ serve (ServiceA.ValidateAndProcessCep A.env "cep=29902555")
     = mkState ["ValidateAndProcessCep"] []
         (mkWriter (Some 422%Z)
            [ServiceA.EncMap [("error", "invalid zipcode")]]).
Proof.
  split; [reflexivity|].
  exact (@gateway_rejects_undecodable_body A.env "cep=29902555"
           "unexpected end of JSON input" eq_refl).
Defined.

Lemma gateway_request_not_created_witness :
  ServiceA.url_Parse_error Outage.misconfigured
    "http://service b:8090/29902555"
  = Some "invalid character in host name"
  /\ w (serve (ServiceA.ValidateAndProcessCep Outage.misconfigured
                 (A.request "29902555")))
     = mkWriter (Some 500%Z)
         [ServiceA.EncMap
            [("error",
              "failed to create request: invalid character in host name")]]
  /\ sent (serve (ServiceA.ValidateAndProcessCep Outage.misconfigured
                    (A.request "29902555"))) = [].
Proof.
  split; [reflexivity|].
  exact (@gateway_request_not_created Outage.misconfigured
           (A.request "29902555") (ServiceA.mkCepRequest "29902555")
           "invalid character in host name" eq_refl cep_29902555 eq_refl).
Defined.

Lemma gateway_no_answer_is_500_witness :
  w (serve (ServiceA.ValidateAndProcessCep Outage.unreachable
              (A.request "29902555")))
  = mkWriter (Some 500%Z)
      [ServiceA.EncMap
         [("error", "failed to call ServiceB: connection refused")]]
  /\ w (serve (ServiceA.ValidateAndProcessCep Outage.truncated
                 (A.request "29902555")))
     = mkWriter (Some 500%Z)
         [ServiceA.EncMap
            [("error", "failed to read response body: unexpected EOF")]].
Proof.
  split.
  - apply (@gateway_no_answer_is_500 Outage.unreachable
             (A.request "29902555") (ServiceA.mkCepRequest "29902555")
             (DoFailed "connection refused") eq_refl cep_29902555
             eq_refl eq_refl).
    discriminate.
  - apply (@gateway_no_answer_is_500 Outage.truncated
             (A.request "29902555") (ServiceA.mkCepRequest "29902555")
             (ReadFailed 200%Z "unexpected EOF") eq_refl cep_29902555
             eq_refl eq_refl).
    discriminate.
Defined.

Lemma gateway_undecodable_answer_is_500_witness :
  ServiceA.network Outage.proxied (serviceBRequest Outage.proxied "29902555")
  = Responded 200%Z "<html>welcome</html>"
  /\ w (serve (ServiceA.ValidateAndProcessCep Outage.proxied
                 (A.request "29902555")))
     = mkWriter (Some 500%Z)
         [ServiceA.EncMap
            [("error",
              "failed to parse response: unexpected end of JSON input")]].
Proof.
  split; [reflexivity|].
  exact (@gateway_undecodable_answer_is_500 Outage.proxied
           (A.request "29902555") "<html>welcome</html>"
           (ServiceA.mkCepRequest "29902555") "unexpected end of JSON input"
           eq_refl cep_29902555 eq_refl eq_refl eq_refl).
Defined.

Lemma gateway_request_target_witness :
  sent (serve (ServiceA.ValidateAndProcessCep A.env (A.request "29902555")))
  = [mkRequest "GET" "http://localhost:8090/29902555"]
  /\ sent (serve (ServiceA.ValidateAndProcessCep Outage.configured
                    (A.request "29902555")))
     = [mkRequest "GET" "http://serviceb:8090/29902555"].
Proof.
  split.
  - destruct (@gateway_request_target A.env (A.request "29902555")
                (ServiceA.mkCepRequest "29902555") eq_refl cep_29902555
                eq_refl) as (url & Hsent & Hunset & _).
    rewrite Hsent, (Hunset eq_refl). reflexivity.
  - destruct (@gateway_request_target Outage.configured
                (A.request "29902555") (ServiceA.mkCepRequest "29902555")
                eq_refl cep_29902555 eq_refl) as (url & Hsent & _ & Hset).
    rewrite Hsent, Hset; [reflexivity | discriminate].
Defined.

Lemma end_to_end_witness :
  (w (serve (ServiceB.HandlerCep B.env "29902555"))
   = mkWriter (Some 200%Z)
       [ServiceB.EncTemperature
          {| ServiceB.TCity := "Vitória"; ServiceB.TempC := 28.5;
             ServiceB.TempF := 83.30000000000001;
             ServiceB.TempK := 301.65 |}]
   /\ w (serve (ServiceA.ValidateAndProcessCep A.env (A.request "29902555")))
      = mkWriter (Some 200%Z)
          [ServiceA.EncTemperature
             (Some {| ServiceA.City := "Vitória"; ServiceA.TempC := 28.5;
                      ServiceA.TempF := 83.30000000000001;
                      ServiceA.TempK := 301.65 |})])
  /\ (w (serve (ServiceB.HandlerCep B.env "00000000"))
      = mkWriter (Some 404%Z)
          [ServiceB.EncMap [("error", "can not find zipcode")]]
      /\ w (serve (ServiceA.ValidateAndProcessCep A.env
                     (A.request "00000000")))
         = mkWriter (Some 404%Z)
             [ServiceA.EncMap [("error", "can not find zipcode")]]).
Proof.
  split; (split; [reflexivity|]).
  - exact (@end_to_end A.env B.env "29902555" (A.request "29902555")
             A.temperatureBody 200%Z _ eq_refl eq_refl eq_refl eq_refl
             eq_refl).
  - exact (@end_to_end A.env B.env "00000000" (A.request "00000000")
             A.notFoundBody 404%Z _ eq_refl eq_refl eq_refl eq_refl
             eq_refl).
Defined.

End MoreRuns.
